(** * s100py: attribute coercion, chunking back-propagation and grid ingestion

    A shallow embedding of the parts of [s100py/s100.py] and
    [s100py/s102/utils.py] that decide the behaviour of

    - the fill-value / lower / upper coercion of [FeatureInformation],
    - the chunking discovery of [FeatureInstanceBase.write] and the
      back-propagation of [S100Root.write],
    - the grid ingestion functions [from_arrays] and
      [from_arrays_with_metadata], with [get_valid_epsg].

    Python values are modelled as they are at run time: integers are
    unbounded ([Z]), floats are IEEE-754 binary64 values ([spec_float] with
    precision 53 and exponent bound 1024, the specification Rocq itself uses
    for its primitive floats), strings are [string], attribute dictionaries
    are [gmap string value].  Exceptions are results of a sum type. *)

From Stdlib Require Import ZArith List Bool Ascii String Lia.
From Stdlib Require Import Floats.SpecFloat Numbers.DecimalString Numbers.DecimalN.
From stdpp Require Import base option list gmap strings.

Import ListNotations.
Local Open Scope string_scope.
Local Open Scope Z_scope.

(** Split a conjunction into its parts, without touching the parts. *)
Ltac split_all := repeat match goal with |- _ /\ _ => split end.

(** ** Python values, exceptions and built-ins *)

Module Py.

(** The exceptions the embedded code can raise.  [S102Exception] is the
    exception class of [s102/api.py] raised by [from_arrays]. *)
Inductive exn :=
  | KeyError (key : string)
  | IndexError
  | ValueError (msg : string)
  | TypeError (msg : string)
  | AttributeError (msg : string)
  | OverflowError (msg : string)
  | UnicodeDecodeError
  | S102Exception (msg : string).

Inductive result (A : Type) :=
  | Ok (a : A)
  | Raise (e : exn).
Arguments Ok {A} a.
Arguments Raise {A} e.

Definition bind {A B} (r : result A) (k : A -> result B) : result B :=
  match r with
  | Ok a => k a
  | Raise e => Raise e
  end.

Notation "'do' x <- r ; k" := (bind r (fun x => k))
  (at level 10, x name, r at level 100, k at level 200).
Notation "'do' ' p <- r ; k" := (bind r (fun x => match x with p => k end))
  (at level 10, p pattern, r at level 100, k at level 200).

(** Run-time values held in attribute dictionaries and passed to the
    accessors: [int], [float], [str] and tuples of integers (the chunk
    geometry the container layer reports). *)
Inductive value :=
  | VInt (z : Z)
  | VFloat (f : spec_float)
  | VStr (s : string)
  | VTuple (l : list Z).

(** *** Characters *)

Definition chars (s : string) : list ascii := list_ascii_of_string s.
Definition unchars (l : list ascii) : string := string_of_list_ascii l.

Definition is_digit (c : ascii) : bool :=
  let n := N_of_ascii c in (48 <=? n)%N && (n <=? 57)%N.

Definition digit_val (c : ascii) : Z := Z.of_N (N_of_ascii c) - 48.

(** Whitespace as [str.strip()] and the numeric parsers see it: tab, LF,
    VT, FF, CR, FS, GS, RS, US and space.  Strings are sequences of bytes
    here, so the whitespace and the digits outside ASCII that Python also
    accepts are not covered. *)
Definition is_space (c : ascii) : bool :=
  let n := N_of_ascii c in
  ((9 <=? n)%N && (n <=? 13)%N) || ((28 <=? n)%N && (n <=? 32)%N).

Fixpoint lstrip (l : list ascii) : list ascii :=
  match l with
  | c :: r => if is_space c then lstrip r else l
  | [] => []
  end.

Definition strip (l : list ascii) : list ascii :=
  rev (lstrip (rev (lstrip l))).

Definition lower_char (c : ascii) : ascii :=
  let n := N_of_ascii c in
  if (65 <=? n)%N && (n <=? 90)%N then ascii_of_N (n + 32) else c.

(** *** [str(int)] and [int(str)] *)

(** Decimal digits of a natural number, most significant first. *)
Definition digits_of_N (n : N) : string :=
  NilZero.string_of_uint (N.to_uint n).

(** [str(z)] for a Python [int]. *)
Definition str_of_int (z : Z) : string :=
  match z with
  | Zneg p => "-" ++ digits_of_N (Npos p)
  | _ => digits_of_N (Z.to_N z)
  end.

(** The value of a decimal numeral read after the digits worth [acc]. *)
Fixpoint uint_val (d : Decimal.uint) (acc : Z) : Z :=
  match d with
  | Decimal.Nil => acc
  | Decimal.D0 l => uint_val l (10 * acc + 0)
  | Decimal.D1 l => uint_val l (10 * acc + 1)
  | Decimal.D2 l => uint_val l (10 * acc + 2)
  | Decimal.D3 l => uint_val l (10 * acc + 3)
  | Decimal.D4 l => uint_val l (10 * acc + 4)
  | Decimal.D5 l => uint_val l (10 * acc + 5)
  | Decimal.D6 l => uint_val l (10 * acc + 6)
  | Decimal.D7 l => uint_val l (10 * acc + 7)
  | Decimal.D8 l => uint_val l (10 * acc + 8)
  | Decimal.D9 l => uint_val l (10 * acc + 9)
  end.

(** A run of decimal digits in which single underscores may separate
    digits (PEP 515), read most significant first.  [acc] is the value
    read so far, [seen] tells whether the previous character was a digit.
    The run must be non-empty and must not end in an underscore. *)
Fixpoint digit_run (l : list ascii) (acc : Z) (seen : bool) : option Z :=
  match l with
  | [] => if seen then Some acc else None
  | c :: r =>
      if is_digit c then digit_run r (10 * acc + digit_val c) true
      else if (Ascii.eqb c "_" && seen)%bool then
        match r with
        | d :: _ => if is_digit d then digit_run r acc false else None
        | [] => None
        end
      else None
  end.

Definition split_sign (l : list ascii) : bool * list ascii :=
  match l with
  | c :: r =>
      if Ascii.eqb c "-" then (true, r)
      else if Ascii.eqb c "+" then (false, r)
      else (false, l)
  | [] => (false, [])
  end.

(** [int(s)] for a string [s], base 10. *)
Definition int_of_str (s : string) : result Z :=
  let '(neg, body) := split_sign (strip (chars s)) in
  match digit_run body 0 false with
  | Some n => Ok (if neg then - n else n)
  | None => Raise (ValueError ("invalid literal for int() with base 10: " ++ s))
  end.

(** *** binary64 floats *)

Definition prec : Z := 53.
Definition emax : Z := 1024.

Definition fadd : spec_float -> spec_float -> spec_float := SFadd prec emax.
Definition fmul : spec_float -> spec_float -> spec_float := SFmul prec emax.
Definition fltb : spec_float -> spec_float -> bool := SFltb.
Definition feqb : spec_float -> spec_float -> bool := SFeqb.

(** The integer [z] rounded to the nearest binary64 value, ties to even. *)
Definition float_of_Z (z : Z) : spec_float := binary_normalize prec emax z 0 false.

(** [float(z)] for a Python [int]. *)
Definition float_of_int (z : Z) : result spec_float :=
  match float_of_Z z with
  | S754_infinity _ => Raise (OverflowError "int too large to convert to float")
  | f => Ok f
  end.

(** [int(f)] for a Python [float]: truncation towards zero. *)
Definition int_of_float (f : spec_float) : result Z :=
  match f with
  | S754_zero _ => Ok 0
  | S754_nan => Raise (ValueError "cannot convert float NaN to integer")
  | S754_infinity _ => Raise (OverflowError "cannot convert float infinity to integer")
  | S754_finite s m e =>
      let a := if 0 <=? e then Zpos m * 2 ^ e else Zpos m / 2 ^ (- e) in
      Ok (if s then - a else a)
  end.

(** The decimal [c * 10^s] (with [0 <= c]) rounded to the nearest binary64
    value, ties to even; [neg] is the sign. *)
Definition float_of_decimal (neg : bool) (c s : Z) : spec_float :=
  match c with
  | Zpos p =>
      if 0 <=? s then binary_normalize prec emax (if neg then - (c * 10 ^ s) else c * 10 ^ s) 0 false
      else SFdiv prec emax (S754_finite neg p 0) (S754_finite false (Z.to_pos (10 ^ (- s))) 0)
  | _ => S754_zero neg
  end.

(** *** [repr(float)]

    CPython prints a float with the shortest decimal string that converts
    back to the same float (and, among the shortest, the one nearest to it),
    in positional notation when the decimal point position [decpt]
    satisfies [-4 < decpt <= 16] and in exponent notation otherwise. *)

(** The exact value of the positive float [m * 2^e] as a fraction. *)
Definition frac_of (m : positive) (e : Z) : Z * Z :=
  if 0 <=? e then (Zpos m * 2 ^ e, 1) else (Zpos m, 2 ^ (- e)).

(** Smallest [j >= j0] with [1 <= (num/den) * 10^j]. *)
Fixpoint neg_exp10 (fuel : nat) (num den j : Z) : Z :=
  match fuel with
  | O => j
  | S fuel' => if den <=? num * 10 ^ j then j else neg_exp10 fuel' num den (j + 1)
  end.

(** The [k] with [10^(k-1) <= num/den < 10^k]. *)
Definition decimal_exponent (num den : Z) : Z :=
  if den <=? num then Z.of_nat (String.length (digits_of_N (Z.to_N (num / den))))
  else 1 - neg_exp10 400 num den 1.

(** The decimals with [n] significant digits next to [x = num/den] are
    [lo * 10^s] and [(lo+1) * 10^s]; keep the ones that convert back to
    [x], the nearer one first (ties to the even digit). *)
Definition shortest_at (x : spec_float) (num den k n : Z) : option (Z * Z) :=
  let s := k - n in
  let '(N, D) := if 0 <=? s then (num, den * 10 ^ s) else (num * 10 ^ (- s), den) in
  let lo := N / D in
  let hi := lo + 1 in
  let ok c := feqb (float_of_decimal false c s) x in
  let lo_nearer :=
    match 2 * (N - lo * D) ?= D with
    | Lt => true
    | Eq => Z.even lo
    | Gt => false
    end in
  match ok lo, ok hi with
  | true, true => Some (if lo_nearer then lo else hi, s)
  | true, false => Some (lo, s)
  | false, true => Some (hi, s)
  | false, false => None
  end.

Fixpoint shortest_from (fuel : nat) (x : spec_float) (num den k n : Z) : Z * Z :=
  match shortest_at x num den k n with
  | Some r => r
  | None =>
      match fuel with
      | S fuel' => shortest_from fuel' x num den k (n + 1)
      | O => ((num * 10 ^ (n - k)) / den, k - n)
      end
  end.

Fixpoint drop_zeros (l : list ascii) : list ascii :=
  match l with
  | c :: r => if Ascii.eqb c "0" then drop_zeros r else l
  | [] => []
  end.

(** Digits (without trailing zeros) and decimal point position of the
    shortest decimal for the positive float [m * 2^e]: its value is
    [0.d1d2...dn * 10^decpt]. *)
Definition short_digits (m : positive) (e : Z) : list ascii * Z :=
  let '(num, den) := frac_of m e in
  let k := decimal_exponent num den in
  let '(c, s) := shortest_from 16 (S754_finite false m e) num den k 1 in
  let ds := chars (digits_of_N (Z.to_N c)) in
  (rev (drop_zeros (rev ds)), s + Z.of_nat (List.length ds)).

Definition zeros (n : Z) : list ascii := repeat "0"%char (Z.to_nat n).

(** The exponent suffix [e+XX] / [e-XX], at least two digits. *)
Definition exp_suffix (x : Z) : list ascii :=
  let a := chars (digits_of_N (Z.to_N (Z.abs x))) in
  "e"%char :: (if x <? 0 then "-"%char else "+"%char)
    :: (if Nat.ltb (List.length a) 2 then "0"%char :: a else a).

Definition repr_digits (ds : list ascii) (decpt : Z) : list ascii :=
  let nd := Z.of_nat (List.length ds) in
  if (decpt <=? -4) || (16 <? decpt) then
    match ds with
    | d :: rest =>
        d :: (match rest with [] => [] | _ => "."%char :: rest end) ++ exp_suffix (decpt - 1)
    | [] => []
    end
  else if decpt <=? 0 then chars "0." ++ zeros (- decpt) ++ ds
  else if decpt <? nd then take (Z.to_nat decpt) ds ++ "."%char :: drop (Z.to_nat decpt) ds
  else ds ++ zeros (decpt - nd) ++ chars ".0".

(** [repr(f)], which is also [str(f)], for a Python [float]. *)
Definition repr_float (f : spec_float) : string :=
  match f with
  | S754_nan => "nan"
  | S754_infinity s => if s then "-inf" else "inf"
  | S754_zero s => if s then "-0.0" else "0.0"
  | S754_finite s m e =>
      let '(ds, decpt) := short_digits m e in
      (if s then "-" else "") ++ unchars (repr_digits ds decpt)
  end.

(** *** [float(str)] *)

(** Split at the first character satisfying [p]; the separator is dropped. *)
Fixpoint split_at (p : ascii -> bool) (l : list ascii) : list ascii * option (list ascii) :=
  match l with
  | [] => ([], None)
  | c :: r =>
      if p c then ([], Some r)
      else let '(a, b) := split_at p r in (c :: a, b)
  end.

Definition count_digits (l : list ascii) : Z :=
  Z.of_nat (List.length (List.filter is_digit l)).

(** A possibly empty digit run continuing the value [acc]. *)
Definition digit_run_opt (l : list ascii) (acc : Z) : option Z :=
  match l with
  | [] => Some acc
  | _ => digit_run l acc false
  end.

(** The mantissa [ip.fp]: the integer made of all its digits and the
    number of digits after the point. *)
Definition parse_mantissa (l : list ascii) : option (Z * Z) :=
  let '(ip, fp) := split_at (fun c => Ascii.eqb c ".") l in
  let fp' := match fp with Some r => r | None => [] end in
  match ip, fp' with
  | [], [] => None
  | _, _ =>
      match digit_run_opt ip 0 with
      | Some a =>
          match digit_run_opt fp' 0 with
          | Some _ =>
              match digit_run_opt (List.filter is_digit fp') a with
              | Some c => Some (c, count_digits fp')
              | None => None
              end
          | None => None
          end
      | None => None
      end
  end.

Definition parse_exponent (l : option (list ascii)) : option Z :=
  match l with
  | None => Some 0
  | Some r =>
      let '(neg, body) := split_sign r in
      match digit_run body 0 false with
      | Some x => Some (if neg then - x else x)
      | None => None
      end
  end.

(** [float(s)] for a string [s]. *)
Definition float_of_str (s : string) : result spec_float :=
  let '(neg, body) := split_sign (strip (chars s)) in
  let low := unchars (map lower_char body) in
  if String.eqb low "inf" || String.eqb low "infinity" then Ok (S754_infinity neg)
  else if String.eqb low "nan" then Ok S754_nan
  else
    let '(mant, ex) := split_at (fun c => Ascii.eqb (lower_char c) "e") body in
    match parse_mantissa mant, parse_exponent ex with
    | Some (c, nfrac), Some x => Ok (float_of_decimal neg c (x - nfrac))
    | _, _ => Raise (ValueError ("could not convert string to float: " ++ s))
    end.

(** *** The built-ins [int()], [float()] and [str()] on values *)

Definition py_int (v : value) : result Z :=
  match v with
  | VInt z => Ok z
  | VFloat f => int_of_float f
  | VStr s => int_of_str s
  | VTuple _ => Raise (TypeError "int() argument must be a string or a number, not 'tuple'")
  end.

Definition py_float (v : value) : result spec_float :=
  match v with
  | VInt z => float_of_int z
  | VFloat f => Ok f
  | VStr s => float_of_str s
  | VTuple _ => Raise (TypeError "float() argument must be a string or a number, not 'tuple'")
  end.

(** [repr] of a tuple of integers: [()], [(1,)], [(1, 2)]. *)
Definition repr_tuple (l : list Z) : string :=
  match l with
  | [] => "()"
  | [a] => "(" ++ str_of_int a ++ ",)"
  | _ => "(" ++ String.concat ", " (map str_of_int l) ++ ")"
  end%string.

Definition py_str (v : value) : string :=
  match v with
  | VInt z => str_of_int z
  | VFloat f => repr_float f
  | VStr s => s
  | VTuple l => repr_tuple l
  end.

(** A float literal, by its text. *)
Definition flt (s : string) : spec_float :=
  match float_of_str s with
  | Ok f => f
  | Raise _ => S754_nan
  end.

(** The floats [12000.0] and [1e16]. *)
Definition f12000 : spec_float := float_of_Z 12000.
Definition f1e16 : spec_float := float_of_Z (10 ^ 16).

End Py.

(** ** The HDF5 container, as far as the embedded code observes it

    The container-access layer (h5py) is an external collaborator.  A file
    is a finite map from absolute paths to nodes; a group handle is the
    absolute path of the group. *)

Module H5.
Import Py.

Inductive node :=
  | Group (attrs : gmap string value)
  | Dataset (chunks : option (list Z)) (attrs : gmap string value).

Definition node_attrs (n : node) : gmap string value :=
  match n with
  | Group a => a
  | Dataset _ a => a
  end.

Definition set_node_attrs (new : gmap string value) (n : node) : node :=
  match n with
  | Group a => Group (new ∪ a)
  | Dataset c a => Dataset c (new ∪ a)
  end.

(** [str.split(sep)] on characters. *)
Fixpoint split_on (sep : ascii) (l : list ascii) : list (list ascii) :=
  match l with
  | [] => [[]]
  | c :: r =>
      if Ascii.eqb c sep then [] :: split_on sep r
      else
        match split_on sep r with
        | h :: t => (c :: h) :: t
        | [] => [[c]]
        end
  end.

Definition split (s : string) (sep : ascii) : list string :=
  map unchars (split_on sep (chars s)).

(** [l[-n:]] *)
Definition last_n {A} (n : nat) (l : list A) : list A :=
  drop (List.length l - n)%nat l.

(** [group[rel]]: the absolute path [rel] names when looked up from the
    group at [base]. *)
Definition resolve (base rel : string) : string :=
  match rel with
  | String "/" _ => rel
  | _ => if String.eqb base "/" then "/" ++ rel else base ++ "/" ++ rel
  end%string.

(** [group[rel]] raises [KeyError] when nothing is stored under the name. *)
Definition getitem (f : gmap string node) (base rel : string) : result (string * node) :=
  match f !! resolve base rel with
  | Some n => Ok (resolve base rel, n)
  | None => Raise (KeyError rel)
  end.

(** [node.chunks]: the chunk geometry of a dataset ([None] when the dataset
    is stored contiguously); groups have no such attribute. *)
Definition chunks (n : node) : result (option (list Z)) :=
  match n with
  | Dataset c _ => Ok c
  | Group _ => Raise (AttributeError "'Group' object has no attribute 'chunks'")
  end.

(** Chunk geometry stored at an absolute path, if a dataset is there. *)
Definition chunks_at (f : gmap string node) (p : string) : option (option (list Z)) :=
  match f !! p with
  | Some (Dataset c _) => Some c
  | _ => None
  end.

End H5.

(** ** s100.py *)

Module S100.
Import Py.

(** *** The HDF5 type-class table *)

(** The [h5py.h5t] constants the module refers to. *)
Inductive h5t :=
  | NO_CLASS | INTEGER | FLOAT | TIME | STRING | BITFIELD | OPAQUE | COMPOUND
  | REFERENCE | ENUM | VLEN | ARRAY
  | NATIVE_INT8 | NATIVE_UINT8 | NATIVE_INT16 | NATIVE_UINT16
  | NATIVE_INT32 | NATIVE_UINT32 | NATIVE_INT64 | NATIVE_UINT64 | C_S1.

Definition H5T_CLASS_T (c : h5t) : string :=
  match c with
  | NO_CLASS => "H5T_NO_CLASS"
  | INTEGER => "H5T_INTEGER"
  | FLOAT => "H5T_NATIVE_FLOAT"
  | TIME => "H5T_TIME"
  | STRING => "H5T_STRING"
  | BITFIELD => "H5T_BITFIELD"
  | OPAQUE => "H5T_OPAQUE"
  | COMPOUND => "H5T_COMPOUND"
  | REFERENCE => "H5T_REFERENCE"
  | ENUM => "H5T_ENUM"
  | VLEN => "H5T_VLEN"
  | ARRAY => "H5T_ARRAY"
  | NATIVE_INT8 => "H5T_NATIVE_INT8"
  | NATIVE_UINT8 => "H5T_NATIVE_UINT8"
  | NATIVE_INT16 => "H5T_NATIVE_INT16"
  | NATIVE_UINT16 => "H5T_NATIVE_UINT16"
  | NATIVE_INT32 => "H5T_NATIVE_INT32"
  | NATIVE_UINT32 => "H5T_NATIVE_UINT32"
  | NATIVE_INT64 => "H5T_NATIVE_INT64"
  | NATIVE_UINT64 => "H5T_NATIVE_UINT64"
  | C_S1 => "H5T_C_S1"
  end.

(** The Python types a range field can take. *)
Inductive pytype := py_int_t | py_float_t | py_str_t.

(** What Python type each string representation of an HDF5 type goes to. *)
Definition _H5T_Types (t : pytype) : list string :=
  match t with
  | py_int_t =>
      map H5T_CLASS_T
        [INTEGER; NATIVE_INT8; NATIVE_UINT8; NATIVE_INT16; NATIVE_UINT16;
         NATIVE_INT32; NATIVE_UINT32; NATIVE_INT64; NATIVE_UINT64]
  | py_float_t => map H5T_CLASS_T [FLOAT] ++ ["H5T_FLOAT"]
  | py_str_t => map H5T_CLASS_T [C_S1; STRING]
  end.

(** [v in l] for a list of strings [l]. *)
Definition str_in (v : value) (l : list string) : bool :=
  match v with
  | VStr s => existsb (String.eqb s) l
  | _ => false
  end.

(** [self._attributes[key]] *)
Definition attr (a : gmap string value) (key : string) : result value :=
  match a !! key with
  | Some v => Ok v
  | None => Raise (KeyError key)
  end.

(** *** FeatureInformation

    An instance is its [_attributes] dictionary. *)

Definition fill_value_attribute_name := "fillValue".
Definition datatype_attribute_name := "datatype".
Definition lower_attribute_name := "lower".
Definition upper_attribute_name := "upper".

Definition _python_datatype (self : gmap string value) : pytype :=
  match self !! datatype_attribute_name with
  | None => py_str_t
  | Some datatype =>
      if str_in datatype (_H5T_Types py_int_t) then py_int_t
      else if str_in datatype (_H5T_Types py_float_t) then py_float_t
      else py_str_t
  end.

Definition _convert_from_string_based_on_datatype
    (self : gmap string value) (str_val : value) : result value :=
  match _python_datatype self with
  | py_int_t => do z <- py_int str_val; Ok (VInt z)
  | py_float_t => do f <- py_float str_val; Ok (VFloat f)
  | py_str_t => Ok str_val
  end.

(** [s[:-2] if s[-2:] == ".0" else s] *)
Definition strip_dot_zero (s : string) : string :=
  let l := chars s in
  match rev l with
  | "0"%char :: "."%char :: _ => unchars (take (List.length l - 2)%nat l)
  | _ => s
  end.

Definition _convert_to_string_based_on_datatype
    (self : gmap string value) (val : value) : result string :=
  match _python_datatype self with
  | py_int_t => do z <- py_int val; Ok (str_of_int z)
  | py_float_t => do f <- py_float val; Ok (strip_dot_zero (repr_float f))
  | py_str_t => Ok (py_str val)
  end.

Definition fill_value (self : gmap string value) : result value :=
  do v <- attr self fill_value_attribute_name;
  _convert_from_string_based_on_datatype self v.

Definition set_fill_value (self : gmap string value) (val : value)
  : result (gmap string value) :=
  do s <- _convert_to_string_based_on_datatype self val;
  Ok (<[fill_value_attribute_name := VStr s]> self).

Definition lower (self : gmap string value) : result value :=
  do v <- attr self lower_attribute_name;
  _convert_from_string_based_on_datatype self v.

Definition set_lower (self : gmap string value) (val : value)
  : result (gmap string value) :=
  do s <- _convert_to_string_based_on_datatype self val;
  Ok (<[lower_attribute_name := VStr s]> self).

Definition upper (self : gmap string value) : result value :=
  do v <- attr self upper_attribute_name;
  _convert_from_string_based_on_datatype self v.

Definition set_upper (self : gmap string value) (val : value)
  : result (gmap string value) :=
  do s <- _convert_to_string_based_on_datatype self val;
  Ok (<[upper_attribute_name := VStr s]> self).

(** *** Chunk-list coercion

    The setters of [FeatureInstanceBase.instance_chunking] and
    [Chunking.chunking]: a string is kept, anything else is iterated and
    its items joined with commas. *)

Definition instance_chunking_attribute_name := "instanceChunking".
Definition chunking_attribute_name := "chunking".

(** [val if isinstance(val, str) else ",".join(str(a) for a in val)] *)
Definition chunk_string (val : value) : result string :=
  match val with
  | VStr s => Ok s
  | VTuple l => Ok (String.concat "," (map str_of_int l))
  | VInt _ => Raise (TypeError "'int' object is not iterable")
  | VFloat _ => Raise (TypeError "'float' object is not iterable")
  end.

Definition set_instance_chunking (self : gmap string value) (val : value)
  : result (gmap string value) :=
  do s <- chunk_string val;
  Ok (<[instance_chunking_attribute_name := VStr s]> self).

Definition set_chunking (self : gmap string value) (val : value)
  : result (gmap string value) :=
  do s <- chunk_string val;
  Ok (<[chunking_attribute_name := VStr s]> self).

(** *** The objects of the schema graph

    Every object keeps its simple attributes in [_attributes]; the
    objects hanging off it are reached through property names.  The
    tables [get_standard_list_properties()] (name pattern to list property)
    and [get_standard_properties_mapping()] (HDF5 name to property name)
    belong to the base classes of [s1xx.py] and are carried by the
    objects. *)

Record DataGroup := {
  grp_hdf5_path : string
}.

Record FeatureInstance := {
  fi_attributes : gmap string value;
  fi_standard_list_properties : list (string * string);
  fi_lists : gmap string (list DataGroup)
}.

Record FeatureContainer := {
  fc_standard_list_properties : list (string * string);
  fc_lists : gmap string (list FeatureInstance)
}.

Record FeatureInformationDataset := {
  fid_attributes : gmap string value;
  fid_hdf5_path : string
}.

(** A feature code is a text string or a byte string; the two never
    compare equal.  Text is kept in its UTF-8 encoding. *)
Inductive pystring :=
  | Text (s : string)
  | Bytes (b : string).

Definition pystring_eqb (a b : pystring) : bool :=
  match a, b with
  | Text x, Text y => String.eqb x y
  | Bytes x, Bytes y => String.eqb x y
  | _, _ => false
  end.

Record GroupF := {
  gf_feature_code : option (list pystring);
  gf_standard_properties_mapping : list (pystring * string);
  gf_datasets : gmap string FeatureInformationDataset
}.

Inductive root_child :=
  | ChildGroupF (g : GroupF)
  | ChildContainer (c : FeatureContainer).

Record S100Root := {
  root_attributes : gmap string value;
  (** [get_standard_properties()], each name with whether
      [<name>_type] is a subclass of [GroupFBase] *)
  root_standard_properties : list (string * bool);
  root_standard_properties_mapping : list (pystring * string);
  root_children : gmap string root_child
}.

(** The write method inherited from [S1xxAttributesBase]: it writes the
    object and, through their own [write] methods, the objects below it
    into the group at the given path. *)
Class S1xxAttributesBase (A : Type) := {
  super_write : A -> string -> gmap string H5.node -> result (A * gmap string H5.node)
}.

(** Modelled from the spec: [write_simple_attributes] of [s1xx.py], which
    is not part of the sources at hand.  It sets every simple attribute of
    the object on the node the handle points to and writes no group and no
    dataset. *)
Definition write_simple_attributes
    (attributes : gmap string value) (handle : string) (f : gmap string H5.node)
  : gmap string H5.node :=
  alter (H5.set_node_attrs attributes) handle f.

(** *** FeatureInstanceBase.write *)

(** [grp._hdf5_path.split("/")[-1] + '/values'] *)
Definition values_path (grp : DataGroup) : string :=
  (List.last (H5.split (grp_hdf5_path grp) "/") "" ++ "/values")%string.

(** The inner loop: every group of one list. *)
Fixpoint scan_groups (f : gmap string H5.node) (hdf5_object : string)
    (group_list : list DataGroup) (chunking : option (list Z))
  : result (option (list Z)) :=
  match group_list with
  | [] => Ok chunking
  | grp :: rest =>
      match H5.getitem f hdf5_object (values_path grp) with
      | Ok (_, n) => do c <- H5.chunks n; scan_groups f hdf5_object rest c
      | Raise (KeyError _) => scan_groups f hdf5_object rest chunking
      | Raise e => Raise e
      end
  end.

(** The outer loop: every list property of the instance. *)
Fixpoint scan_lists (self : FeatureInstance) (f : gmap string H5.node)
    (hdf5_object : string) (props : list (string * string))
    (chunking : option (list Z)) : result (option (list Z)) :=
  match props with
  | [] => Ok chunking
  | (_pattern, group_attrib) :: rest =>
      match fi_lists self !! group_attrib with
      | Some group_list =>
          do c <- scan_groups f hdf5_object group_list chunking;
          scan_lists self f hdf5_object rest c
      | None => Raise (KeyError group_attrib)
      end
  end.

Definition FeatureInstanceBase_write `{S1xxAttributesBase FeatureInstance}
    (self : FeatureInstance) (hdf5_object : string) (f : gmap string H5.node)
  : result (FeatureInstance * gmap string H5.node) :=
  do '(self, f) <- super_write self hdf5_object f;
  do chunking <- scan_lists self f hdf5_object (fi_standard_list_properties self) None;
  match chunking with
  | Some c =>
      do a <- set_instance_chunking (fi_attributes self) (VTuple c);
      let self := {| fi_attributes := a;
                     fi_standard_list_properties := fi_standard_list_properties self;
                     fi_lists := fi_lists self |} in
      Ok (self, write_simple_attributes (fi_attributes self) hdf5_object f)
  | None => Ok (self, f)
  end.

(** Every list property of the instance is set, and no group of any of
    them has a child named "values" in the file. *)
Definition no_values_dataset (self : FeatureInstance) (h : string)
    (f : gmap string H5.node) : Prop :=
  Forall (fun prop : string * string =>
            exists groups,
              fi_lists self !! prop.2 = Some groups /\
              Forall (fun grp => f !! H5.resolve h (values_path grp) = None) groups)
         (fi_standard_list_properties self).

(** *** S100Root.write *)

(** Well-formed UTF-8: [n] continuation bytes are still due; [lo] and
    [hi] bound the next byte. *)
Fixpoint utf8_valid (l : list ascii) (n : nat) (lo hi : N) : bool :=
  match l with
  | [] => Nat.eqb n 0
  | c :: r =>
      let b := N_of_ascii c in
      match n with
      | S n' => (lo <=? b)%N && (b <=? hi)%N && utf8_valid r n' 128 191
      | O =>
          if (b <? 128)%N then utf8_valid r 0 128 191
          else if (194 <=? b)%N && (b <=? 223)%N then utf8_valid r 1 128 191
          else if (b =? 224)%N then utf8_valid r 2 160 191
          else if (b =? 237)%N then utf8_valid r 2 128 159
          else if (225 <=? b)%N && (b <=? 239)%N then utf8_valid r 2 128 191
          else if (b =? 240)%N then utf8_valid r 3 144 191
          else if (b =? 244)%N then utf8_valid r 3 128 143
          else if (241 <=? b)%N && (b <=? 243)%N then utf8_valid r 3 128 191
          else false
      end
  end.

(** [name.decode()]: only byte strings have the method. *)
Definition decode (name : pystring) : result pystring :=
  match name with
  | Bytes b =>
      if utf8_valid (chars b) 0 128 191 then Ok (Text b) else Raise UnicodeDecodeError
  | Text _ => Raise (AttributeError "'str' object has no attribute 'decode'")
  end.

(** [mapping[key]] for a dictionary kept as an association list. *)
Fixpoint dict_get (mapping : list (pystring * string)) (key : pystring) : result string :=
  match mapping with
  | [] => Raise (KeyError (match key with Text s => s | Bytes b => b end))
  | (k, v) :: rest => if pystring_eqb k key then Ok v else dict_get rest key
  end.

(** [try: mapping[feat_name] except KeyError: mapping[feat_name.decode()]] *)
Definition lookup_feature_name (mapping : list (pystring * string)) (feat_name : pystring)
  : result string :=
  match dict_get mapping feat_name with
  | Ok python_name => Ok python_name
  | Raise (KeyError _) => do decoded <- decode feat_name; dict_get mapping decoded
  | Raise e => Raise e
  end.

(** [self.__getattribute__(name)] on the root. *)
Definition root_getattribute (self : S100Root) (name : string) : result root_child :=
  match root_children self !! name with
  | Some c => Ok c
  | None => Raise (KeyError name)
  end.

(** The first loop: the last property whose type derives from
    [GroupFBase], with the name it was found under. *)
Fixpoint find_feat_info (self : S100Root) (props : list (string * bool))
    (feat_info : option (string * root_child)) : result (option (string * root_child)) :=
  match props with
  | [] => Ok feat_info
  | (property_name, is_group_f) :: rest =>
      if is_group_f then
        do c <- root_getattribute self property_name;
        find_feat_info self rest (Some (property_name, c))
      else find_feat_info self rest feat_info
  end.

(** [for feat_instance in list_of_features: try: chunking =
    feat_instance.instance_chunking except: pass] *)
Fixpoint scan_instances (list_of_features : list FeatureInstance) (chunking : option value)
  : option value :=
  match list_of_features with
  | [] => chunking
  | feat_instance :: rest =>
      match fi_attributes feat_instance !! instance_chunking_attribute_name with
      | Some v => scan_instances rest (Some v)
      | None => scan_instances rest chunking
      end
  end.

(** The loop over the list properties of the feature container; a list
    that was never initialised counts as empty. *)
Fixpoint scan_feature_lists (feat_container : FeatureContainer)
    (props : list (string * string)) (chunking : option value) : option value :=
  match props with
  | [] => chunking
  | (_pattern, list_name) :: rest =>
      let list_of_features :=
        match fc_lists feat_container !! list_name with
        | Some l => l
        | None => []
        end in
      scan_feature_lists feat_container rest (scan_instances list_of_features chunking)
  end.

(** ["/".join(path.split("/")[-2:])] *)
Definition relative_hdf5_dataset_path (path : string) : string :=
  String.concat "/" (H5.last_n 2 (H5.split path "/")).

(** The body of the loop over the feature codes, for one code. *)
Definition propagate_chunking (self : S100Root) (group_object : string)
    (feat_name : pystring) (feat_info : GroupF) (f : gmap string H5.node)
  : result (GroupF * gmap string H5.node) :=
  do python_name <- lookup_feature_name (root_standard_properties_mapping self) feat_name;
  do child <- root_getattribute self python_name;
  match child with
  | ChildGroupF _ =>
      Raise (AttributeError "object has no attribute 'get_standard_list_properties'")
  | ChildContainer feat_container =>
      match scan_feature_lists feat_container (fc_standard_list_properties feat_container) None with
      | Some chunking =>
          do groupf_python_name <-
            lookup_feature_name (gf_standard_properties_mapping feat_info) feat_name;
          match gf_datasets feat_info !! groupf_python_name with
          | None => Raise (KeyError groupf_python_name)
          | Some feat_info_dataset =>
              do a <- set_chunking (fid_attributes feat_info_dataset) chunking;
              let feat_info_dataset :=
                {| fid_attributes := a; fid_hdf5_path := fid_hdf5_path feat_info_dataset |} in
              do '(handle, _) <-
                H5.getitem f group_object
                  (relative_hdf5_dataset_path (fid_hdf5_path feat_info_dataset));
              Ok ({| gf_feature_code := gf_feature_code feat_info;
                     gf_standard_properties_mapping := gf_standard_properties_mapping feat_info;
                     gf_datasets := <[groupf_python_name := feat_info_dataset]> (gf_datasets feat_info) |},
                  write_simple_attributes (fid_attributes feat_info_dataset) handle f)
          end
      | None => Ok (feat_info, f)
      end
  end.

Fixpoint propagate_all (self : S100Root) (group_object : string)
    (feature_code : list pystring) (feat_info : GroupF) (f : gmap string H5.node)
  : result (GroupF * gmap string H5.node) :=
  match feature_code with
  | [] => Ok (feat_info, f)
  | feat_name :: rest =>
      do '(feat_info, f) <- propagate_chunking self group_object feat_name feat_info f;
      propagate_all self group_object rest feat_info f
  end.

Definition S100Root_write `{S1xxAttributesBase S100Root}
    (self : S100Root) (group_object : string) (f : gmap string H5.node)
  : result (S100Root * gmap string H5.node) :=
  do '(self, f) <- super_write self group_object f;
  do found <- find_feat_info self (root_standard_properties self) None;
  match found with
  | None => Ok (self, f)
  | Some (_, ChildContainer _) =>
      Raise (AttributeError "object has no attribute 'feature_code'")
  | Some (property_name, ChildGroupF feat_info) =>
      match gf_feature_code feat_info with
      | None => Raise (KeyError "featureCode")
      | Some feature_code =>
          do '(feat_info, f) <- propagate_all self group_object feature_code feat_info f;
          Ok ({| root_attributes := root_attributes self;
                 root_standard_properties := root_standard_properties self;
                 root_standard_properties_mapping := root_standard_properties_mapping self;
                 root_children := <[property_name := ChildGroupF feat_info]> (root_children self) |},
              f)
      end
  end.

End S100.

(** ** numpy arrays, as far as the ingestion code uses them *)

Module Numpy.
Import Py.

(** A two-dimensional array of floats: its rows, the length of a row and
    whether its dtype is [float32] (otherwise [float64]).  The nodata
    marker of the ingestion functions is [None] or a Python float. *)
Record ndarray := {
  rows : list (list spec_float);
  ncols : nat;
  single : bool
}.

Definition shape (a : ndarray) : Z * Z :=
  (Z.of_nat (List.length (rows a)), Z.of_nat (ncols a)).

Definition shape_eqb (s t : Z * Z) : bool :=
  (fst s =? fst t) && (snd s =? snd t).

(** Conversion of a Python float to the dtype of an array. *)
Definition cast (to_single : bool) (f : spec_float) : spec_float :=
  if to_single then
    match f with
    | S754_finite s m e => binary_round 24 128 s m e
    | _ => f
    end
  else f.

(** [numpy.full(shape, fill_value, dtype=numpy.float32)]; the fill value
    [None] converts to NaN. *)
Definition full (shp : Z * Z) (fill_value : option spec_float) : ndarray :=
  let c := match fill_value with Some v => cast true v | None => S754_nan end in
  {| rows := repeat (repeat c (Z.to_nat (snd shp))) (Z.to_nat (fst shp));
     ncols := Z.to_nat (snd shp);
     single := true |}.

(** One cell of [a != scalar]: a Python float is converted to the dtype
    of the array, [None] differs from every number. *)
Definition cell_ne (a : ndarray) (scalar : option spec_float) (c : spec_float) : bool :=
  match scalar with
  | Some v => negb (feqb c (cast (single a) v))
  | None => true
  end.

(** [a[a != scalar]]: the selected cells, flattened. *)
Definition select_ne (a : ndarray) (scalar : option spec_float) : list spec_float :=
  List.filter (cell_ne a scalar) (concat (rows a)).

Definition is_nan (f : spec_float) : bool :=
  match f with S754_nan => true | _ => false end.

Definition maximum (a b : spec_float) : spec_float :=
  if is_nan a then a else if is_nan b then b else if fltb a b then b else a.

Definition minimum (a b : spec_float) : spec_float :=
  if is_nan a then a else if is_nan b then b else if fltb b a then b else a.

(** [cells.max()] and [cells.min()]: an empty selection has no maximum. *)
Definition max (cells : list spec_float) : result spec_float :=
  match cells with
  | [] => Raise (ValueError "zero-size array to reduction operation maximum which has no identity")
  | c :: r => Ok (fold_left maximum r c)
  end.

Definition min (cells : list spec_float) : result spec_float :=
  match cells with
  | [] => Raise (ValueError "zero-size array to reduction operation minimum which has no identity")
  | c :: r => Ok (fold_left minimum r c)
  end.

Definition with_rows (a : ndarray) (r : list (list spec_float)) : ndarray :=
  {| rows := r; ncols := ncols a; single := single a |}.

(** [numpy.fliplr]: reverse along the second axis. *)
Definition fliplr (a : ndarray) : ndarray := with_rows a (map (@rev spec_float) (rows a)).

(** [numpy.flipud]: reverse along the first axis. *)
Definition flipud (a : ndarray) : ndarray := with_rows a (rev (rows a)).

(** [a[a == scalar] = fill] on a copy of [a]. *)
Definition replace (a : ndarray) (scalar : option spec_float) (fill : spec_float) : ndarray :=
  with_rows a
    (map (map (fun c => if cell_ne a scalar c then c else cast (single a) fill)) (rows a)).

End Numpy.

(** ** s102/utils.py *)

Module Utils.
Import Py.

(** *** Python arithmetic on numbers *)

Definition as_float (v : value) : result spec_float :=
  match v with
  | VInt z => float_of_int z
  | VFloat f => Ok f
  | _ => Raise (TypeError "unsupported operand type(s)")
  end.

Definition py_add (a b : value) : result value :=
  match a, b with
  | VInt x, VInt y => Ok (VInt (x + y))
  | _, _ => do x <- as_float a; do y <- as_float b; Ok (VFloat (fadd x y))
  end.

Definition py_mul (a b : value) : result value :=
  match a, b with
  | VInt x, VInt y => Ok (VInt (x * y))
  | _, _ => do x <- as_float a; do y <- as_float b; Ok (VFloat (fmul x y))
  end.

(** Exact comparison of an [int] with a [float]. *)
Definition compare_int_float (z : Z) (f : spec_float) : option comparison :=
  match f with
  | S754_nan => None
  | S754_infinity s => Some (if s then Gt else Lt)
  | S754_zero _ => Some (z ?= 0)
  | S754_finite s m e =>
      let v := if s then Zneg m else Zpos m in
      Some (if 0 <=? e then z ?= v * 2 ^ e else z * 2 ^ (- e) ?= v)
  end.

Definition py_compare (a b : value) : result (option comparison) :=
  match a, b with
  | VInt x, VInt y => Ok (Some (x ?= y))
  | VFloat x, VFloat y => Ok (SFcompare x y)
  | VInt x, VFloat y => Ok (compare_int_float x y)
  | VFloat x, VInt y => Ok (option_map CompOpp (compare_int_float y x))
  | _, _ => Raise (TypeError "'<' not supported between instances")
  end.

(** [a < b] *)
Definition py_lt (a b : value) : result bool :=
  do c <- py_compare a b;
  Ok (match c with Some Lt => true | _ => false end).

(** [min((a, b))] and [max((a, b))]: the first item stays unless the
    second is strictly smaller (larger). *)
Definition py_min (a b : value) : result value :=
  do lt <- py_lt b a; Ok (if lt then b else a).

Definition py_max (a b : value) : result value :=
  do lt <- py_lt a b; Ok (if lt then b else a).

Definition py_abs (a : value) : result value :=
  match a with
  | VInt z => Ok (VInt (Z.abs z))
  | VFloat f => Ok (VFloat (SFabs f))
  | _ => Raise (TypeError "bad operand type for abs()")
  end.

(** *** The S-102 object graph the functions fill in *)

Record Origin := {
  origin_dimension : Z;
  origin_coordinate : option (value * value)
}.

(** [bathy_group_object]: one data group of a bathymetry coverage. *)
Record BathymetryGroup := {
  extent : option (list Z * list Z);
  maximum_depth : option spec_float;
  minimum_depth : option spec_float;
  maximum_uncertainty : option spec_float;
  minimum_uncertainty : option spec_float;
  dimension : option Z;
  origin : option Origin;
  (** [values.depth] and [values.uncertainty] *)
  values : option (option Numpy.ndarray * option Numpy.ndarray)
}.

Definition new_group : BathymetryGroup :=
  {| extent := None; maximum_depth := None; minimum_depth := None;
     maximum_uncertainty := None; minimum_uncertainty := None;
     dimension := None; origin := None; values := None |}.

(** [bathy_01]: one feature instance, with the attributes of
    [FeatureInstanceDCF2] under their HDF5 names. *)
Record BathymetryInstance := {
  instance_attributes : gmap string value;
  bathymetry_group : list BathymetryGroup
}.

Definition new_instance : BathymetryInstance :=
  {| instance_attributes := ∅; bathymetry_group := [] |}.

Record S102File := {
  (** simple attributes of [root] *)
  root : gmap string value;
  (** [root.feature_information.bathymetry_coverage_dataset]: the
      [FeatureInformation] rows *)
  bathymetry_coverage_dataset : list (gmap string value);
  (** [root.bathymetry_coverage.bathymetry_coverage] *)
  bathymetry_coverage : list BathymetryInstance
}.

(** The [metadata] dictionary, with the keys the docstring lists. *)
Record Metadata := {
  md_origin : option (value * value);
  md_res : option (value * value);
  md_horizontalDatumReference : option value;
  md_horizontalDatumValue : option value;
  md_epoch : option value;
  md_geographicIdentifier : option value;
  md_issueDate : option value;
  md_metadataFile : option value
}.

(** What the functions take from modules that are not among the sources:
    [create_s102] builds the object graph through [s102/api.py];
    [initialize_properties] is the bulk initialiser of [s1xx.py] applied to
    a feature instance; [describe_and_write] stands for the last
    statements of [from_arrays_with_metadata], which ask [osr] for the axis
    names, set the textual attributes through the coercions of [s1xx.py]
    and write and flush the file. *)
Class S102Api := {
  create_s102 : S102File -> S102File;
  initialize_properties : bool -> gmap string value -> gmap string value;
  describe_and_write : Metadata -> bool -> S102File -> result unit * S102File
}.

(** *** Statements that may raise, over the file object they mutate *)

Definition M (A : Type) : Type := S102File -> result A * S102File.

Definition ret {A} (a : A) : M A := fun s => (Ok a, s).

Definition bindM {A B} (m : M A) (k : A -> M B) : M B :=
  fun s =>
    match m s with
    | (Ok a, s') => k a s'
    | (Raise e, s') => (Raise e, s')
    end.

Definition lift {A} (r : result A) : M A := fun s => (r, s).
Definition get : M S102File := fun s => (Ok s, s).
Definition modify (f : S102File -> S102File) : M unit := fun s => (Ok tt, f s).

(** Statements that leave the attributes of the root alone. *)
Definition keeps_root {A} (m : M A) : Prop :=
  forall s, root (snd (m s)) = root s.

Notation "'do!' x <- m ; k" := (bindM m (fun x => k))
  (at level 10, x name, m at level 100, k at level 200).
Notation "'do!' ' p <- m ; k" := (bindM m (fun x => match x with p => k end))
  (at level 10, p pattern, m at level 100, k at level 200).

(** Updates of the objects [root], [bathy_01] and [bathy_group_object]. *)

Definition on_head {A} (f : A -> A) (l : list A) : list A :=
  match l with
  | a :: r => f a :: r
  | [] => []
  end.

(** [try: l[0] except IndexError: l.append_new_item()] *)
Definition ensure_head {A} (fresh : A) (l : list A) : list A :=
  match l with
  | [] => [fresh]
  | _ => l
  end.

Definition with_root (f : gmap string value -> gmap string value) (s : S102File) : S102File :=
  {| root := f (root s);
     bathymetry_coverage_dataset := bathymetry_coverage_dataset s;
     bathymetry_coverage := bathymetry_coverage s |}.

Definition with_instances (f : list BathymetryInstance -> list BathymetryInstance)
    (s : S102File) : S102File :=
  {| root := root s;
     bathymetry_coverage_dataset := bathymetry_coverage_dataset s;
     bathymetry_coverage := f (bathymetry_coverage s) |}.

Definition with_attributes (f : gmap string value -> gmap string value)
    (i : BathymetryInstance) : BathymetryInstance :=
  {| instance_attributes := f (instance_attributes i);
     bathymetry_group := bathymetry_group i |}.

Definition with_groups (f : list BathymetryGroup -> list BathymetryGroup)
    (i : BathymetryInstance) : BathymetryInstance :=
  {| instance_attributes := instance_attributes i;
     bathymetry_group := f (bathymetry_group i) |}.

Definition bathy_01 (f : gmap string value -> gmap string value) : M unit :=
  modify (with_instances (on_head (with_attributes f))).

Definition bathy_group_object (f : BathymetryGroup -> BathymetryGroup) : M unit :=
  modify (with_instances (on_head (with_groups (on_head f)))).

Definition set_extent (v : list Z * list Z) (g : BathymetryGroup) : BathymetryGroup :=
  {| extent := Some v; maximum_depth := maximum_depth g; minimum_depth := minimum_depth g;
     maximum_uncertainty := maximum_uncertainty g; minimum_uncertainty := minimum_uncertainty g;
     dimension := dimension g; origin := origin g; values := values g |}.

Definition set_depth_range (lo hi : spec_float) (g : BathymetryGroup) : BathymetryGroup :=
  {| extent := extent g; maximum_depth := Some hi; minimum_depth := Some lo;
     maximum_uncertainty := maximum_uncertainty g; minimum_uncertainty := minimum_uncertainty g;
     dimension := dimension g; origin := origin g; values := values g |}.

Definition set_uncertainty_range (lo hi : spec_float) (g : BathymetryGroup) : BathymetryGroup :=
  {| extent := extent g; maximum_depth := maximum_depth g; minimum_depth := minimum_depth g;
     maximum_uncertainty := Some hi; minimum_uncertainty := Some lo;
     dimension := dimension g; origin := origin g; values := values g |}.

Definition set_dimension (d : Z) (g : BathymetryGroup) : BathymetryGroup :=
  {| extent := extent g; maximum_depth := maximum_depth g; minimum_depth := minimum_depth g;
     maximum_uncertainty := maximum_uncertainty g; minimum_uncertainty := minimum_uncertainty g;
     dimension := Some d; origin := origin g; values := values g |}.

Definition set_origin (o : Origin) (g : BathymetryGroup) : BathymetryGroup :=
  {| extent := extent g; maximum_depth := maximum_depth g; minimum_depth := minimum_depth g;
     maximum_uncertainty := maximum_uncertainty g; minimum_uncertainty := minimum_uncertainty g;
     dimension := dimension g; origin := Some o; values := values g |}.

Definition set_values (v : option Numpy.ndarray * option Numpy.ndarray)
    (g : BathymetryGroup) : BathymetryGroup :=
  {| extent := extent g; maximum_depth := maximum_depth g; minimum_depth := minimum_depth g;
     maximum_uncertainty := maximum_uncertainty g; minimum_uncertainty := minimum_uncertainty g;
     dimension := dimension g; origin := origin g; values := Some v |}.

(** Value arrays stored in the first group of the first instance. *)
Definition stored_values (s : S102File)
  : option (option Numpy.ndarray * option Numpy.ndarray) :=
  match bathymetry_coverage s with
  | i :: _ =>
      match bathymetry_group i with
      | g :: _ => values g
      | [] => None
      end
  | [] => None
  end.

(** [bathy_group_object.origin.coordinate = numpy.array([x, y])] *)
Definition set_origin_coordinate (c : value * value) : M unit :=
  fun s =>
    match bathymetry_coverage s with
    | i :: _ =>
        match bathymetry_group i with
        | g :: _ =>
            match origin g with
            | Some o =>
                bathy_group_object
                  (set_origin {| origin_dimension := origin_dimension o;
                                 origin_coordinate := Some c |}) s
            | None => (Raise (KeyError "origin"), s)
            end
        | [] => (Raise IndexError, s)
        end
    | [] => (Raise IndexError, s)
    end.

(** [root.feature_information.bathymetry_coverage_dataset[i].fill_value] *)
Definition dataset_fill_value (i : nat) : M value :=
  fun s =>
    match bathymetry_coverage_dataset s !! i with
    | Some row => (S100.fill_value row, s)
    | None => (Raise IndexError, s)
    end.

(** [nodata_value != fill]: [None] and numbers differ, and so do numbers
    and strings. *)
Definition nodata_ne (nodata_value : option spec_float) (fill : value) : bool :=
  match nodata_value, fill with
  | Some x, VFloat f => negb (feqb x f)
  | Some x, VInt z =>
      match compare_int_float z x with
      | Some Eq => false
      | _ => true
      end
  | _, _ => true
  end.

(** *** get_valid_epsg *)

(** [list(numpy.arange(a, b))] *)
Definition arange (a b : Z) : list Z :=
  map (fun i => a + Z.of_nat i) (seq 0 (Z.to_nat (b - a))).

Definition get_valid_epsg : list Z :=
  [4326; 5041; 5042] ++ arange 32601 (32660 + 1) ++ arange 32701 (32760 + 1).

(** [x in l] *)
Definition contains (l : list Z) (x : Z) : bool := existsb (Z.eqb x) l.

(** *** from_arrays *)

Section Ingestion.
Context `{S102Api}.

Definition from_arrays (depth_grid : Numpy.ndarray) (uncert_grid : option Numpy.ndarray)
    (nodata_value : option spec_float) (flip_x flip_y overwrite : bool) : M unit :=
  do! _ <- modify create_s102;
  do! _ <- modify (with_instances (ensure_head new_instance));
  do! _ <- bathy_01 (initialize_properties overwrite);
  do! _ <- bathy_01 (delete "gridSpacingVertical");
  do! _ <- bathy_01 (delete "gridOriginVertical");
  do! _ <- bathy_01 (delete "numberOfTimes");
  do! _ <- bathy_01 (delete "timeRecordInterval");
  do! _ <- bathy_01 (delete "dateTimeOfLastRecord");
  do! _ <- bathy_01 (delete "dateTimeOfFirstRecord");
  do! _ <- bathy_01 (insert "numGRP" (VInt 1));
  do! _ <- modify (with_instances (on_head (with_groups (ensure_head new_group))));
  let '(nx, ny) := Numpy.shape depth_grid in
  let uncert_grid :=
    match uncert_grid with
    | None => Numpy.full (Numpy.shape depth_grid) nodata_value
    | Some u => u
    end in
  if negb (Numpy.shape_eqb (Numpy.shape depth_grid) (Numpy.shape uncert_grid)) then
    lift (Raise (S102Exception "Depth and Uncertainty grids have different shapes"))
  else
  do! _ <- bathy_01 (insert "numPointsLatitudinal" (VInt ny));
  do! _ <- bathy_01 (insert "numPointsLongitudinal" (VInt nx));
  do! _ <- bathy_01 (insert "startSequence" (VStr "0,0"));
  do! _ <- bathy_01 (delete "numPointsVertical");
  do! _ <- bathy_01 (delete "verticalExtent.maximumZ");
  do! _ <- bathy_01 (delete "verticalExtent.minimumZ");
  do! _ <- bathy_group_object (set_extent ([0; 0], [nx; ny]));
  do! depth_max <- lift (Numpy.max (Numpy.select_ne depth_grid nodata_value));
  do! depth_min <- lift (Numpy.min (Numpy.select_ne depth_grid nodata_value));
  do! _ <- bathy_group_object (set_depth_range depth_min depth_max);
  do! uncertainty_max <- lift (Numpy.max (Numpy.select_ne uncert_grid nodata_value));
  do! uncertainty_min <- lift (Numpy.min (Numpy.select_ne uncert_grid nodata_value));
  do! _ <- bathy_group_object (set_uncertainty_range uncertainty_min uncertainty_max);
  do! _ <- bathy_group_object (set_dimension 2);
  do! _ <- bathy_group_object
             (set_origin {| origin_dimension := 2; origin_coordinate := None |});
  do! _ <- bathy_group_object (set_values (None, None));
  let depth_grid := if flip_x then Numpy.fliplr depth_grid else depth_grid in
  let uncert_grid := if flip_x then Numpy.fliplr uncert_grid else uncert_grid in
  let depth_grid := if flip_y then Numpy.flipud depth_grid else depth_grid in
  let uncert_grid := if flip_y then Numpy.flipud uncert_grid else uncert_grid in
  do! fill <- dataset_fill_value 0;
  do! '(depth_grid, uncert_grid) <-
    (if nodata_ne nodata_value fill then
       do! depth_fill <- dataset_fill_value 0;
       do! depth_fill <- lift (py_float depth_fill);
       do! uncert_fill <- dataset_fill_value 1;
       do! uncert_fill <- lift (py_float uncert_fill);
       ret (Numpy.replace depth_grid nodata_value depth_fill,
            Numpy.replace uncert_grid nodata_value uncert_fill)
     else ret (depth_grid, uncert_grid));
  bathy_group_object (set_values (Some depth_grid, Some uncert_grid)).

(** The file object when [from_arrays] reaches its shape check. *)
Definition prepared (overwrite : bool) (s : S102File) : S102File :=
  with_instances (on_head (with_groups (ensure_head new_group)))
    (with_instances (on_head (with_attributes (insert "numGRP" (VInt 1))))
    (with_instances (on_head (with_attributes (delete "dateTimeOfFirstRecord")))
    (with_instances (on_head (with_attributes (delete "dateTimeOfLastRecord")))
    (with_instances (on_head (with_attributes (delete "timeRecordInterval")))
    (with_instances (on_head (with_attributes (delete "numberOfTimes")))
    (with_instances (on_head (with_attributes (delete "gridOriginVertical")))
    (with_instances (on_head (with_attributes (delete "gridSpacingVertical")))
    (with_instances (on_head (with_attributes (initialize_properties overwrite)))
    (with_instances (ensure_head new_instance) (create_s102 s)))))))))).

(** *** from_arrays_with_metadata *)

(** [metadata[key]] for the two tuple-valued keys. *)
Definition md_item (key : string) (v : option (value * value)) : result (value * value) :=
  match v with
  | Some p => Ok p
  | None => Raise (KeyError key)
  end.

(** The first statements of [from_arrays_with_metadata]: the flips and the
    corners of the grid, [(flip_x, flip_y, minx, maxx, miny, maxy)]. *)
Definition grid_corners (depth_grid : Numpy.ndarray) (metadata : Metadata)
  : result (bool * bool * value * value * value * value) :=
  do '(res_x, res_y) <- md_item "res" (md_res metadata);
  do flip_x <- py_lt res_x (VInt 0);
  do flip_y <- py_lt res_y (VInt 0);
  let '(nx, ny) := Numpy.shape depth_grid in
  do '(corner_x, corner_y) <- md_item "origin" (md_origin metadata);
  do dx <- py_mul res_x (VInt (nx - 1));
  do opposite_corner_x <- py_add corner_x dx;
  do dy <- py_mul res_y (VInt (ny - 1));
  do opposite_corner_y <- py_add corner_y dy;
  do minx <- py_min corner_x opposite_corner_x;
  do maxx <- py_max corner_x opposite_corner_x;
  do miny <- py_min corner_y opposite_corner_y;
  do maxy <- py_max corner_y opposite_corner_y;
  Ok (flip_x, flip_y, minx, maxx, miny, maxy).

(** The assignments of the bounding box, the grid origin and the grid
    spacing to [root], [bathy_01] and [bathy_group_object]. *)
Definition set_bounds (metadata : Metadata) (minx maxx miny maxy : value) : M unit :=
  do! _ <- modify (with_root (insert "eastBoundLongitude" maxx));
  do! _ <- modify (with_root (insert "westBoundLongitude" minx));
  do! _ <- modify (with_root (insert "southBoundLatitude" miny));
  do! _ <- modify (with_root (insert "northBoundLatitude" maxy));
  do! _ <- bathy_01 (insert "eastBoundLongitude" maxx);
  do! _ <- bathy_01 (insert "westBoundLongitude" minx);
  do! _ <- bathy_01 (insert "southBoundLatitude" miny);
  do! _ <- bathy_01 (insert "northBoundLatitude" maxy);
  do! _ <- bathy_01 (insert "gridOriginLatitude" miny);
  do! _ <- bathy_01 (insert "gridOriginLongitude" minx);
  do! _ <- bathy_01 (insert "gridOriginLatitude" miny);
  do! '(res_x, res_y) <- lift (md_item "res" (md_res metadata));
  do! spacing_x <- lift (py_abs res_x);
  do! _ <- bathy_01 (insert "gridSpacingLongitudinal" spacing_x);
  do! spacing_y <- lift (py_abs res_y);
  do! _ <- bathy_01 (insert "gridSpacingLatitudinal" spacing_y);
  set_origin_coordinate (minx, miny).

(** ["key" in metadata] *)
Definition has_key {A} (v : option A) : bool :=
  match v with
  | Some _ => true
  | None => false
  end.

(** The horizontal datum: the reference, then the validated EPSG code. *)
Definition set_horizontal_datum (metadata : Metadata) (overwrite : bool) : M unit :=
  do! _ <-
    (if has_key (md_horizontalDatumReference metadata) || overwrite then
       modify (with_root (insert "horizontalDatumReference"
                 (default (VStr "EPSG") (md_horizontalDatumReference metadata))))
     else ret tt);
  if has_key (md_horizontalDatumValue metadata) || overwrite then
    do! source_epsg <- lift (py_int (default (VInt 0) (md_horizontalDatumValue metadata)));
    if contains get_valid_epsg source_epsg then
      modify (with_root (insert "horizontalDatumValue" (VInt source_epsg)))
    else
      lift (Raise (ValueError ("The provided EPSG code " ++ str_of_int source_epsg
                                ++ " is not within the S102 specified values.")))
  else ret tt.

Definition from_arrays_with_metadata (depth_grid : Numpy.ndarray)
    (uncert_grid : option Numpy.ndarray) (metadata : Metadata)
    (nodata_value : option spec_float) (overwrite : bool) : M unit :=
  do! '(flip_x, flip_y, minx, maxx, miny, maxy) <- lift (grid_corners depth_grid metadata);
  do! _ <- from_arrays depth_grid uncert_grid nodata_value flip_x flip_y overwrite;
  do! _ <- set_bounds metadata minx maxx miny maxy;
  do! _ <- set_horizontal_datum metadata overwrite;
  describe_and_write metadata overwrite.

End Ingestion.

End Utils.

(** ** Sample objects

    A small container layer and a small product, on which the statements
    below are run. *)

Module Sample.
Import Py S100.

(** A container layer that chunks every "values" dataset by 150 x 200. *)
Definition geometry : list Z := [150; 200].

Definition write_group (h : string) (f : gmap string H5.node) (grp : DataGroup)
  : gmap string H5.node :=
  let name := List.last (H5.split (grp_hdf5_path grp) "/") "" in
  <[H5.resolve h (name ++ "/values")%string := H5.Dataset (Some geometry) ∅]>
    (<[H5.resolve h name := H5.Group ∅]> f).

Definition groups_of (self : FeatureInstance) : list DataGroup :=
  concat (map (fun prop : string * string => default [] (fi_lists self !! prop.2))
              (fi_standard_list_properties self)).

(** An inherited write for feature instances: the simple attributes go
    to the group of the instance, every data group gets its dataset. *)
#[local] Instance instance_base : S1xxAttributesBase FeatureInstance := {
  super_write self h f :=
    Ok (self, fold_left (write_group h) (groups_of self)
                (<[h := H5.Group (fi_attributes self)]> f))
}.

Fixpoint write_instances (h : string) (n : Z) (l : list FeatureInstance)
    (f : gmap string H5.node) : result (list FeatureInstance * gmap string H5.node) :=
  match l with
  | [] => Ok ([], f)
  | i :: r =>
      do '(i, f) <- FeatureInstanceBase_write i (h ++ "." ++ str_of_int n)%string f;
      do '(r, f) <- write_instances h (n + 1) r f;
      Ok (i :: r, f)
  end.

Fixpoint write_lists (h : string) (props : list (string * string)) (c : FeatureContainer)
    (f : gmap string H5.node) : result (FeatureContainer * gmap string H5.node) :=
  match props with
  | [] => Ok (c, f)
  | (_, name) :: rest =>
      match fc_lists c !! name with
      | Some l =>
          do '(l, f) <- write_instances h 1 l f;
          write_lists h rest
            {| fc_standard_list_properties := fc_standard_list_properties c;
               fc_lists := <[name := l]> (fc_lists c) |} f
      | None => write_lists h rest c f
      end
  end.

(** The HDF5 name a property is stored under. *)
Fixpoint hdf5_name (mapping : list (pystring * string)) (python_name : string) : string :=
  match mapping with
  | (Text k, v) :: rest => if String.eqb v python_name then k else hdf5_name rest python_name
  | _ :: rest => hdf5_name rest python_name
  | [] => python_name
  end.

Definition write_dataset (f : gmap string H5.node) (d : FeatureInformationDataset)
  : gmap string H5.node :=
  <[fid_hdf5_path d := H5.Dataset None (fid_attributes d)]> f.

Fixpoint write_children (g : string) (names : list string) (self : S100Root)
    (f : gmap string H5.node) : result (S100Root * gmap string H5.node) :=
  match names with
  | [] => Ok (self, f)
  | name :: rest =>
      match root_children self !! name with
      | Some (ChildContainer c) =>
          let hdf5 := hdf5_name (root_standard_properties_mapping self) name in
          let h := H5.resolve g hdf5 in
          do '(c, f) <- write_lists (h ++ "/" ++ hdf5)%string (fc_standard_list_properties c) c
                          (<[h := H5.Group ∅]> f);
          write_children g rest
            {| root_attributes := root_attributes self;
               root_standard_properties := root_standard_properties self;
               root_standard_properties_mapping := root_standard_properties_mapping self;
               root_children := <[name := ChildContainer c]> (root_children self) |} f
      | Some (ChildGroupF gf) =>
          write_children g rest self
            (fold_left write_dataset (map snd (map_to_list (gf_datasets gf)))
               (<[H5.resolve g (hdf5_name (root_standard_properties_mapping self) name)
                  := H5.Group ∅]> f))
      | None => write_children g rest self f
      end
  end.

(** An inherited write for the root: its simple attributes, then every
    child; feature instances are written by [FeatureInstanceBase_write]. *)
#[local] Instance root_base : S1xxAttributesBase S100Root := {
  super_write self g f :=
    write_children g (map fst (root_standard_properties self)) self
      (<[g := H5.Group (root_attributes self)]> f)
}.

(** One bathymetry coverage with one data group. *)
Definition coverage_01 : FeatureInstance :=
  {| fi_attributes := {[ "numGRP" := VInt 1; instance_chunking_attribute_name := VStr "" ]};
     fi_standard_list_properties := [("Group[\._]\d+", "bathymetry_group")];
     fi_lists :=
       {[ "bathymetry_group" :=
            [ {| grp_hdf5_path := "/BathymetryCoverage/BathymetryCoverage.1/Group_001" |} ] ]} |}.

(** A coverage that already carries a chunking of its own. *)
Definition coverage_with (chunking : string) : FeatureInstance :=
  {| fi_attributes := {[ instance_chunking_attribute_name := VStr chunking ]};
     fi_standard_list_properties := fi_standard_list_properties coverage_01;
     fi_lists := fi_lists coverage_01 |}.

(** The group of [coverage_01] in the file. *)
Definition coverage_01_path : string := "/BathymetryCoverage/BathymetryCoverage.1".

(** An inherited write that stores the simple attributes and no dataset. *)
Definition attributes_only : S1xxAttributesBase FeatureInstance := {|
  super_write self h f := Ok (self, <[h := H5.Group (fi_attributes self)]> f)
|}.

(** An inherited write for the root that stores the root attributes and
    the Group_F datasets and leaves the feature instances as they are. *)
Definition descriptive_only : S1xxAttributesBase S100Root := {|
  super_write self g f :=
    Ok (self,
        <["/Group_F/BathymetryCoverage" := H5.Dataset None ∅]>
          (<[g := H5.Group (root_attributes self)]> f))
|}.

Definition coverage_container (l : list FeatureInstance) : FeatureContainer :=
  {| fc_standard_list_properties := [("BathymetryCoverage[\._]\d+", "bathymetry_coverage")];
     fc_lists := {[ "bathymetry_coverage" := l ]} |}.

Definition group_f : GroupF :=
  {| gf_feature_code := Some [Bytes "BathymetryCoverage"];
     gf_standard_properties_mapping :=
       [(Text "featureCode", "feature_code");
        (Text "BathymetryCoverage", "bathymetry_coverage_dataset")];
     gf_datasets :=
       {[ "bathymetry_coverage_dataset" :=
            {| fid_attributes := {[ chunking_attribute_name := VStr "0,0" ]};
               fid_hdf5_path := "/Group_F/BathymetryCoverage" |} ]} |}.

Definition sample_root (l : list FeatureInstance) : S100Root :=
  {| root_attributes := {[ "horizontalDatumValue" := VInt 4326 ]};
     root_standard_properties :=
       [("feature_information", true); ("bathymetry_coverage", false)];
     root_standard_properties_mapping :=
       [(Text "Group_F", "feature_information");
        (Text "BathymetryCoverage", "bathymetry_coverage")];
     root_children :=
       {[ "feature_information" := ChildGroupF group_f;
          "bathymetry_coverage" := ChildContainer (coverage_container l) ]} |}.

(** [coverage_01] once its chunking is discovered, the file its group
    is written to, and the file the sample root is written to. *)
Definition coverage_01_chunked : FeatureInstance :=
  {| fi_attributes :=
       <[instance_chunking_attribute_name := VStr "150,200"]> (fi_attributes coverage_01);
     fi_standard_list_properties := fi_standard_list_properties coverage_01;
     fi_lists := fi_lists coverage_01 |}.

Definition coverage_01_file : gmap string H5.node :=
  fold_left (write_group coverage_01_path) (groups_of coverage_01)
    (<[coverage_01_path := H5.Group (fi_attributes coverage_01)]> ∅).

Definition sample_root_file : gmap string H5.node :=
  match super_write (sample_root [coverage_01]) "/" ∅ with
  | Ok (_, f) => f
  | Raise _ => ∅
  end.

(** The S-102 collaborators, in a small version: [create_s102] gives
    the file its two FeatureInformation rows (depth and uncertainty, float
    typed, fill value 1000000), [initialize_properties] fills in defaults
    of a feature instance, and the last statements only pass the file on. *)
Definition information_row (code : string) : gmap string value :=
  {[ "code" := VStr code; "name" := VStr code; "uom.name" := VStr "metres";
     "fillValue" := VStr "1000000"; "datatype" := VStr "H5T_NATIVE_FLOAT";
     "lower" := VStr "-12000"; "upper" := VStr "12000";
     "closure" := VStr "closedInterval" ]}.

Definition instance_defaults : gmap string value :=
  {[ "numGRP" := VInt 0; "instanceChunking" := VStr "";
     "numberOfTimes" := VInt 0; "timeRecordInterval" := VInt 0;
     "gridSpacingVertical" := VFloat (S754_zero false);
     "gridOriginVertical" := VFloat (S754_zero false);
     "numPointsVertical" := VInt 0 ]}.

Definition api : Utils.S102Api := {|
  Utils.create_s102 s :=
    {| Utils.root := Utils.root s;
       Utils.bathymetry_coverage_dataset :=
         [information_row "depth"; information_row "uncertainty"];
       Utils.bathymetry_coverage := Utils.bathymetry_coverage s |};
  Utils.initialize_properties overwrite a :=
    if overwrite then instance_defaults ∪ a else a ∪ instance_defaults;
  Utils.describe_and_write _ _ s := (Ok tt, s)
|}.

Definition empty_file : Utils.S102File :=
  {| Utils.root := ∅; Utils.bathymetry_coverage_dataset := [];
     Utils.bathymetry_coverage := [] |}.

(** A grid of [n] rows and [m] columns whose cell in row [i] and column
    [j] holds [i + j]. *)
Definition ramp (n m : nat) : Numpy.ndarray :=
  {| Numpy.rows :=
       map (fun i => map (fun j => float_of_Z (Z.of_nat (i + j))) (seq 0 m)) (seq 0 n);
     Numpy.ncols := m;
     Numpy.single := false |}.

(** The metadata of the grid ingestion scenario, with a datum code. *)
Definition grid_metadata (epsg : Z) : Utils.Metadata :=
  {| Utils.md_origin := Some (VFloat (flt "10.0"), VFloat (flt "20.0"));
     Utils.md_res := Some (VFloat (flt "0.5"), VFloat (flt "-0.5"));
     Utils.md_horizontalDatumReference := None;
     Utils.md_horizontalDatumValue := Some (VInt epsg);
     Utils.md_epoch := None;
     Utils.md_geographicIdentifier := None;
     Utils.md_issueDate := None;
     Utils.md_metadataFile := None |}.

(** The small grid of the datum scenario, the nodata marker, and the
    file once it is ingested and once its bounds are set. *)
Definition small_grid : Numpy.ndarray := ramp 3 2.

Definition nodata : option spec_float := Some (flt "-9999.0").

Definition ingested : Utils.S102File :=
  snd (Utils.from_arrays (H := api) small_grid (Some small_grid) nodata false true true
         empty_file).

Definition bounded : Utils.S102File :=
  snd (Utils.set_bounds (grid_metadata 32601)
         (VFloat (flt "10.0")) (VFloat (flt "11.0")) (VFloat (flt "19.5"))
         (VFloat (flt "20.0")) ingested).

End Sample.

(** * Properties *)

(** ** The Python built-ins on sample inputs *)

Module PyFacts.
Import Py.

Example int_of_str_examples :
  int_of_str "42" = Ok 42 /\ int_of_str " -1_000 " = Ok (-1000) /\
  int_of_str "+7" = Ok 7 /\ str_of_int (-120) = "-120" /\ str_of_int 0 = "0" /\
  (exists e, int_of_str "4_" = Raise e) /\ (exists e, int_of_str "" = Raise e).
Proof. do 4 (split; [reflexivity|]). split; [reflexivity|]. split; eexists; reflexivity. Qed.

Example repr_float_examples :
  repr_float f12000 = "12000.0" /\ repr_float f1e16 = "1e+16" /\
  repr_float (float_of_Z (10 ^ 15)) = "1000000000000000.0" /\
  repr_float (float_of_Z (10 ^ 23)) = "1e+23" /\
  repr_float (float_of_Z (2 ^ 53 + 2)) = "9007199254740994.0" /\
  repr_float (float_of_decimal false 1 (-1)) = "0.1" /\
  repr_float (float_of_decimal true 45 (-1)) = "-4.5" /\
  repr_float (float_of_decimal false 1 (-4)) = "0.0001" /\
  repr_float (float_of_decimal false 1 (-5)) = "1e-05" /\
  repr_float (float_of_decimal false 123456789 (-300)) = "1.23456789e-292" /\
  repr_float (fadd (float_of_decimal false 1 (-1)) (float_of_decimal false 2 (-1)))
    = "0.30000000000000004" /\
  repr_float (S754_finite false 1 (-1074)) = "5e-324" /\
  repr_float (float_of_Z (2 ^ 1024 - 2 ^ 971)) = "1.7976931348623157e+308".
Proof. split_all; vm_compute; reflexivity. Qed.

Example float_of_str_examples :
  float_of_str "12000" = Ok f12000 /\ float_of_str "1.2e4" = Ok f12000 /\
  float_of_str " 12_000.0 " = Ok f12000 /\ float_of_str "1e+16" = Ok f1e16 /\
  float_of_str "-Infinity" = Ok (S754_infinity true) /\
  float_of_str ".5" = Ok (S754_finite false 4503599627370496 (-53)) /\
  float_of_str "1e400" = Ok (S754_infinity false) /\
  float_of_str "1e-400" = Ok (S754_zero false) /\
  (exists e, float_of_str "." = Raise e) /\ (exists e, float_of_str "1e" = Raise e) /\
  (exists e, float_of_str "abc" = Raise e).
Proof. split_all; try (vm_compute; reflexivity); eexists; vm_compute; reflexivity. Qed.

(** *** [int(str(z)) = z] *)

Lemma uint_val_of_uint_acc (d : Decimal.uint) (acc : positive) :
  Zpos (Pos.of_uint_acc d acc) = uint_val d (Zpos acc).
Proof.
  revert acc; induction d; intros acc; simpl; try reflexivity;
    rewrite IHd; f_equal; lia.
Qed.

Lemma uint_val_of_uint (d : Decimal.uint) : Z.of_N (N.of_uint d) = uint_val d 0.
Proof.
  unfold N.of_uint.
  induction d; simpl; try reflexivity; try assumption;
    rewrite uint_val_of_uint_acc; reflexivity.
Qed.

Lemma digit_run_uint (d : Decimal.uint) (acc : Z) (seen : bool) :
  d <> Decimal.Nil \/ seen = true ->
  digit_run (chars (NilEmpty.string_of_uint d)) acc seen = Some (uint_val d acc).
Proof.
  revert acc seen; induction d; intros acc seen Hd; simpl;
    try (apply IHd; right; reflexivity).
  destruct Hd as [Hd | ->]; [congruence | reflexivity].
Qed.

Lemma digit_run_digits (n : N) :
  digit_run (chars (digits_of_N n)) 0 false = Some (Z.of_N n).
Proof.
  unfold digits_of_N.
  rewrite <- (DecimalN.Unsigned.of_to n) at 2.
  rewrite uint_val_of_uint.
  destruct (N.to_uint n) eqn:E; try reflexivity;
    apply (digit_run_uint _ 0 false); left; discriminate.
Qed.

Lemma no_space_uint (d : Decimal.uint) :
  Forall (fun c => is_space c = false) (chars (NilEmpty.string_of_uint d)).
Proof. induction d; simpl; constructor; auto. Qed.

Lemma no_space_digits (n : N) :
  Forall (fun c => is_space c = false) (chars (digits_of_N n)).
Proof.
  unfold digits_of_N, NilZero.string_of_uint.
  destruct (N.to_uint n) eqn:E; try (rewrite <- E; apply no_space_uint).
  repeat constructor.
Qed.

Lemma lstrip_no_space (l : list ascii) :
  Forall (fun c => is_space c = false) l -> lstrip l = l.
Proof. destruct 1 as [| c r Hc _]; simpl; [reflexivity | now rewrite Hc]. Qed.

Lemma strip_no_space (l : list ascii) :
  Forall (fun c => is_space c = false) l -> strip l = l.
Proof.
  intros Hl. unfold strip.
  rewrite (lstrip_no_space l Hl).
  rewrite lstrip_no_space by (apply Forall_rev; exact Hl).
  apply rev_involutive.
Qed.

Lemma split_sign_digits (n : N) :
  split_sign (chars (digits_of_N n)) = (false, chars (digits_of_N n)).
Proof.
  unfold digits_of_N, NilZero.string_of_uint.
  destruct (N.to_uint n); reflexivity.
Qed.

Lemma split_sign_minus (l : list ascii) : split_sign ("-"%char :: l) = (true, l).
Proof. reflexivity. Qed.

Lemma int_of_str_of_int (z : Z) : int_of_str (str_of_int z) = Ok z.
Proof.
  unfold int_of_str.
  assert (Hn : forall n, int_of_str (digits_of_N n) = Ok (Z.of_N n)).
  { intros n. unfold int_of_str.
    rewrite strip_no_space by apply no_space_digits.
    rewrite split_sign_digits, digit_run_digits. reflexivity. }
  destruct z as [| p | p].
  - exact (Hn 0%N).
  - exact (Hn (Npos p)).
  - unfold str_of_int.
    change (chars ("-" ++ digits_of_N (N.pos p)))
      with ("-"%char :: chars (digits_of_N (N.pos p))).
    rewrite strip_no_space by (constructor; [reflexivity | apply no_space_digits]).
    rewrite split_sign_minus, digit_run_digits. reflexivity.
Qed.

End PyFacts.

(** ** FeatureInformation: the coercion of fill value, lower and upper *)

Module S100Facts.
Import Py S100.

Lemma python_datatype_float (self : gmap string value) (dt : string) :
  self !! datatype_attribute_name = Some (VStr dt) ->
  In dt (_H5T_Types py_float_t) ->
  _python_datatype self = py_float_t.
Proof.
  intros Hdt Hin. unfold _python_datatype. rewrite Hdt.
  simpl in Hin. destruct Hin as [<- | [<- | []]]; reflexivity.
Qed.

Lemma python_datatype_int (self : gmap string value) (dt : string) :
  self !! datatype_attribute_name = Some (VStr dt) ->
  In dt (_H5T_Types py_int_t) ->
  _python_datatype self = py_int_t.
Proof.
  intros Hdt Hin. unfold _python_datatype. rewrite Hdt.
  simpl in Hin.
  repeat (destruct Hin as [<- | Hin]; [reflexivity |]). destruct Hin.
Qed.

Lemma python_datatype_insert (self : gmap string value) (key : string) (v : value) :
  key <> datatype_attribute_name ->
  _python_datatype (<[key := v]> self) = _python_datatype self.
Proof.
  intros Hne. unfold _python_datatype. now rewrite lookup_insert_ne.
Qed.

(** Writing a float to a float-typed range field and reading it back. *)
Lemma float_field_round_trip (self : gmap string value) (key : string) (f : spec_float) (s : string) :
  _python_datatype self = py_float_t ->
  key <> datatype_attribute_name ->
  strip_dot_zero (repr_float f) = s ->
  float_of_str s = Ok f ->
  _convert_to_string_based_on_datatype self (VFloat f) = Ok s /\
  (do v <- attr (<[key := VStr s]> self) key;
   _convert_from_string_based_on_datatype (<[key := VStr s]> self) v) = Ok (VFloat f).
Proof.
  intros Ht Hne Hs Hback. split.
  - unfold _convert_to_string_based_on_datatype. rewrite Ht. simpl. now rewrite Hs.
  - unfold attr, _convert_from_string_based_on_datatype.
    rewrite lookup_insert_eq, python_datatype_insert, Ht by exact Hne.
    simpl. now rewrite Hback.
Qed.

(** Writing an integer to an integer-typed range field and reading it back. *)
Lemma int_field_round_trip (self : gmap string value) (key : string) (z : Z) :
  _python_datatype self = py_int_t ->
  key <> datatype_attribute_name ->
  _convert_to_string_based_on_datatype self (VInt z) = Ok (str_of_int z) /\
  (do v <- attr (<[key := VStr (str_of_int z)]> self) key;
   _convert_from_string_based_on_datatype (<[key := VStr (str_of_int z)]> self) v)
    = Ok (VInt z).
Proof.
  intros Ht Hne. split.
  - unfold _convert_to_string_based_on_datatype. now rewrite Ht.
  - unfold attr, _convert_from_string_based_on_datatype.
    rewrite lookup_insert_eq, python_datatype_insert, Ht by exact Hne.
    simpl. now rewrite PyFacts.int_of_str_of_int.
Qed.

Lemma f12000_stored : strip_dot_zero (repr_float f12000) = "12000".
Proof. vm_compute. reflexivity. Qed.

Lemma f12000_read : float_of_str "12000" = Ok f12000.
Proof. vm_compute. reflexivity. Qed.

(** C2.  In a FeatureInformation record whose datatype is one of the float
    type-class codes, setting fill_value (lower, upper) to the float
    12000.0 stores the string "12000", and the typed accessor reads the
    float 12000.0 back.  In a record whose datatype is one of the integer
    type-class codes, setting fill_value (lower, upper) to any integer [z],
    42 among them, stores its decimal string and reads back [z] exactly. *)
Theorem range_coercion_round_trip
    (float_record int_record : gmap string value) (float_code int_code : string) (z : Z) :
  float_record !! datatype_attribute_name = Some (VStr float_code) ->
  In float_code (_H5T_Types py_float_t) ->
  int_record !! datatype_attribute_name = Some (VStr int_code) ->
  In int_code (_H5T_Types py_int_t) ->
  (set_fill_value float_record (VFloat f12000)
     = Ok (<[fill_value_attribute_name := VStr "12000"]> float_record) /\
   fill_value (<[fill_value_attribute_name := VStr "12000"]> float_record) = Ok (VFloat f12000) /\
   set_lower float_record (VFloat f12000)
     = Ok (<[lower_attribute_name := VStr "12000"]> float_record) /\
   lower (<[lower_attribute_name := VStr "12000"]> float_record) = Ok (VFloat f12000) /\
   set_upper float_record (VFloat f12000)
     = Ok (<[upper_attribute_name := VStr "12000"]> float_record) /\
   upper (<[upper_attribute_name := VStr "12000"]> float_record) = Ok (VFloat f12000)) /\
  (set_fill_value int_record (VInt z)
     = Ok (<[fill_value_attribute_name := VStr (str_of_int z)]> int_record) /\
   fill_value (<[fill_value_attribute_name := VStr (str_of_int z)]> int_record) = Ok (VInt z) /\
   set_lower int_record (VInt z)
     = Ok (<[lower_attribute_name := VStr (str_of_int z)]> int_record) /\
   lower (<[lower_attribute_name := VStr (str_of_int z)]> int_record) = Ok (VInt z) /\
   set_upper int_record (VInt z)
     = Ok (<[upper_attribute_name := VStr (str_of_int z)]> int_record) /\
   upper (<[upper_attribute_name := VStr (str_of_int z)]> int_record) = Ok (VInt z)) /\
  str_of_int 42 = "42".
Proof.
  intros Hf Hfin Hi Hiin.
  pose proof (python_datatype_float _ _ Hf Hfin) as Tf.
  pose proof (python_datatype_int _ _ Hi Hiin) as Ti.
  assert (Ff : forall key, key <> datatype_attribute_name ->
            _convert_to_string_based_on_datatype float_record (VFloat f12000) = Ok "12000" /\
            (do v <- attr (<[key := VStr "12000"]> float_record) key;
             _convert_from_string_based_on_datatype (<[key := VStr "12000"]> float_record) v)
              = Ok (VFloat f12000)).
  { intros key Hk.
    exact (float_field_round_trip _ key _ _ Tf Hk f12000_stored f12000_read). }
  assert (Fi : forall key, key <> datatype_attribute_name ->
            _convert_to_string_based_on_datatype int_record (VInt z) = Ok (str_of_int z) /\
            (do v <- attr (<[key := VStr (str_of_int z)]> int_record) key;
             _convert_from_string_based_on_datatype (<[key := VStr (str_of_int z)]> int_record) v)
              = Ok (VInt z)).
  { intros key Hk. exact (int_field_round_trip _ key z Ti Hk). }
  unfold set_fill_value, fill_value, set_lower, lower, set_upper, upper.
  destruct (Ff fill_value_attribute_name) as [-> ->]; [discriminate |].
  destruct (Ff lower_attribute_name) as [_ ->]; [discriminate |].
  destruct (Ff upper_attribute_name) as [_ ->]; [discriminate |].
  destruct (Fi fill_value_attribute_name) as [-> ->]; [discriminate |].
  destruct (Fi lower_attribute_name) as [_ ->]; [discriminate |].
  destruct (Fi upper_attribute_name) as [_ ->]; [discriminate |].
  split_all; reflexivity.
Qed.

(** C3.  The stored form of the float 1e16, an exact integer, in a float
    typed record is the exponent notation "1e+16": neither is the
    exponent avoided nor is the value stored as the digits of the integer.
    The float 1e-05 is stored as "1e-05". *)
Theorem exponent_notation_is_stored :
  let record : gmap string value := {[ datatype_attribute_name := VStr "H5T_NATIVE_FLOAT" ]} in
  int_of_float f1e16 = Ok 10000000000000000 /\
  set_fill_value record (VFloat f1e16)
    = Ok (<[fill_value_attribute_name := VStr "1e+16"]> record) /\
  set_upper record (VFloat f1e16)
    = Ok (<[upper_attribute_name := VStr "1e+16"]> record) /\
  set_lower record (VFloat (float_of_decimal false 1 (-5)))
    = Ok (<[lower_attribute_name := VStr "1e-05"]> record).
Proof. cbv zeta. split_all; vm_compute; reflexivity. Qed.

(** *** The container layer under [write_simple_attributes] *)

Lemma write_simple_attributes_chunks
    (a : gmap string value) (h : string) (f : gmap string H5.node) (p : string) :
  H5.chunks_at (write_simple_attributes a h f) p = H5.chunks_at f p.
Proof.
  unfold H5.chunks_at, write_simple_attributes.
  rewrite lookup_alter. case_decide as E; [subst p | reflexivity].
  destruct (f !! h) as [[|]|]; reflexivity.
Qed.

Lemma write_simple_attributes_attr
    (a : gmap string value) (h : string) (f : gmap string H5.node)
    (n : H5.node) (key : string) (v : value) :
  f !! h = Some n ->
  a !! key = Some v ->
  H5.node_attrs <$> (write_simple_attributes a h f !! h) = Some (a ∪ H5.node_attrs n) /\
  (a ∪ H5.node_attrs n) !! key = Some v.
Proof.
  intros Hn Hk. unfold write_simple_attributes. split.
  - rewrite lookup_alter, decide_True, Hn by reflexivity. destruct n; reflexivity.
  - now apply lookup_union_Some_l.
Qed.

(** *** FeatureInstanceBase.write *)

Lemma scan_groups_missing (f : gmap string H5.node) (h : string)
    (groups : list DataGroup) (c : option (list Z)) :
  Forall (fun grp => f !! H5.resolve h (values_path grp) = None) groups ->
  scan_groups f h groups c = Ok c.
Proof.
  induction 1 as [| grp rest Hg _ IH]; simpl; [reflexivity |].
  unfold H5.getitem. rewrite Hg. exact IH.
Qed.

Lemma scan_lists_missing (self : FeatureInstance) (f : gmap string H5.node) (h : string)
    (props : list (string * string)) (c : option (list Z)) :
  Forall (fun prop : string * string =>
            exists groups,
              fi_lists self !! prop.2 = Some groups /\
              Forall (fun grp => f !! H5.resolve h (values_path grp) = None) groups)
         props ->
  scan_lists self f h props c = Ok c.
Proof.
  induction 1 as [| [pat name] rest (groups & Hl & Hg) _ IH]; simpl; [reflexivity |].
  simpl in Hl. rewrite Hl, (scan_groups_missing _ _ _ _ Hg). exact IH.
Qed.

(** The instance after its chunking was discovered. *)
Lemma scan_single_group (self : FeatureInstance) (f : gmap string H5.node) (h : string)
    (pattern name : string) (grp : DataGroup) (c : option (list Z)) (a : gmap string value) :
  fi_lists self !! name = Some [grp] ->
  f !! H5.resolve h (values_path grp) = Some (H5.Dataset c a) ->
  scan_lists self f h [(pattern, name)] None = Ok c.
Proof.
  intros Hl Hd. simpl. rewrite Hl. simpl. unfold H5.getitem. rewrite Hd. reflexivity.
Qed.

(** *** S100Root.write *)

Lemma scan_instances_unset (l : list FeatureInstance) (c : option value) :
  Forall (fun i => fi_attributes i !! instance_chunking_attribute_name = None) l ->
  scan_instances l c = c.
Proof. induction 1 as [| i r Hi _ IH]; simpl; [reflexivity | now rewrite Hi]. Qed.

(** The scan keeps the value of the last instance that has one. *)
Lemma scan_instances_last (before after : list FeatureInstance) (last : FeatureInstance)
    (c : option value) (v : value) :
  fi_attributes last !! instance_chunking_attribute_name = Some v ->
  Forall (fun i => fi_attributes i !! instance_chunking_attribute_name = None) after ->
  scan_instances (before ++ last :: after)%list c = Some v.
Proof.
  intros Hv Hafter. revert c.
  induction before as [| i r IH]; intros c; simpl.
  - rewrite Hv. now apply scan_instances_unset.
  - destruct (fi_attributes i !! instance_chunking_attribute_name); apply IH.
Qed.

(** The Group_F object once [chunking] is set on one of its datasets. *)
Lemma propagate_chunking_found (self : S100Root) (g : string) (code : pystring)
    (feat_info : GroupF) (f : gmap string H5.node)
    (python_name ds_name s : string) (fc : FeatureContainer) (chunking : value)
    (ds : FeatureInformationDataset) (node : H5.node) :
  lookup_feature_name (root_standard_properties_mapping self) code = Ok python_name ->
  root_children self !! python_name = Some (ChildContainer fc) ->
  scan_feature_lists fc (fc_standard_list_properties fc) None = Some chunking ->
  chunk_string chunking = Ok s ->
  lookup_feature_name (gf_standard_properties_mapping feat_info) code = Ok ds_name ->
  gf_datasets feat_info !! ds_name = Some ds ->
  f !! H5.resolve g (relative_hdf5_dataset_path (fid_hdf5_path ds)) = Some node ->
  propagate_chunking self g code feat_info f =
    Ok ({| gf_feature_code := gf_feature_code feat_info;
           gf_standard_properties_mapping := gf_standard_properties_mapping feat_info;
           gf_datasets :=
             <[ds_name := {| fid_attributes :=
                               <[chunking_attribute_name := VStr s]> (fid_attributes ds);
                             fid_hdf5_path := fid_hdf5_path ds |}]> (gf_datasets feat_info) |},
        write_simple_attributes
          (<[chunking_attribute_name := VStr s]> (fid_attributes ds))
          (H5.resolve g (relative_hdf5_dataset_path (fid_hdf5_path ds))) f).
Proof.
  intros Hname Hchild Hscan Hs Hds Hget Hnode.
  unfold propagate_chunking, root_getattribute, set_chunking, H5.getitem.
  rewrite Hname. simpl. rewrite Hchild. simpl. rewrite Hscan, Hds. simpl.
  rewrite Hget, Hs. simpl. rewrite Hnode. reflexivity.
Qed.

Section Writing.
Context `{S1xxAttributesBase FeatureInstance} `{S1xxAttributesBase S100Root}.

(** The root pass for a product with one feature code. *)
Lemma root_write_one_feature (self self1 : S100Root) (g : string)
    (f f1 : gmap string H5.node) (code : pystring) (feat_info : GroupF)
    (property_name python_name ds_name s : string) (fc : FeatureContainer) (chunking : value)
    (ds : FeatureInformationDataset) (node : H5.node) :
  super_write self g f = Ok (self1, f1) ->
  find_feat_info self1 (root_standard_properties self1) None
    = Ok (Some (property_name, ChildGroupF feat_info)) ->
  gf_feature_code feat_info = Some [code] ->
  lookup_feature_name (root_standard_properties_mapping self1) code = Ok python_name ->
  root_children self1 !! python_name = Some (ChildContainer fc) ->
  scan_feature_lists fc (fc_standard_list_properties fc) None = Some chunking ->
  chunk_string chunking = Ok s ->
  lookup_feature_name (gf_standard_properties_mapping feat_info) code = Ok ds_name ->
  gf_datasets feat_info !! ds_name = Some ds ->
  f1 !! H5.resolve g (relative_hdf5_dataset_path (fid_hdf5_path ds)) = Some node ->
  exists (self2 : S100Root) (feat_info2 : GroupF) (ds2 : FeatureInformationDataset),
    S100Root_write self g f =
      Ok (self2,
          write_simple_attributes (fid_attributes ds2)
            (H5.resolve g (relative_hdf5_dataset_path (fid_hdf5_path ds))) f1) /\
    root_children self2 !! property_name = Some (ChildGroupF feat_info2) /\
    gf_datasets feat_info2 !! ds_name = Some ds2 /\
    fid_attributes ds2 = <[chunking_attribute_name := VStr s]> (fid_attributes ds).
Proof.
  intros Hw Hfind Hcode Hname Hchild Hscan Hs Hds Hget Hnode.
  unfold S100Root_write. rewrite Hw. simpl. rewrite Hfind. simpl. rewrite Hcode.
  simpl.
  rewrite (propagate_chunking_found self1 g code feat_info f1 python_name ds_name s fc
             chunking ds node Hname Hchild Hscan Hs Hds Hget Hnode).
  simpl.
  eexists _, _, {| fid_attributes := <[chunking_attribute_name := VStr s]> (fid_attributes ds);
                   fid_hdf5_path := fid_hdf5_path ds |}.
  split; [reflexivity |]. split; [apply lookup_insert_eq |].
  split; [apply lookup_insert_eq | reflexivity].
Qed.

(** C6.  When, after the inherited write, none of the data groups of a
    feature instance has a child dataset named "values",
    FeatureInstanceBase.write raises nothing and returns the instance and
    the file exactly as the inherited write left them: instanceChunking
    keeps its value and the simple attributes are not flushed again. *)
Theorem write_without_values_dataset
    (self self1 : FeatureInstance) (hdf5_object : string) (f f1 : gmap string H5.node) :
  super_write self hdf5_object f = Ok (self1, f1) ->
  no_values_dataset self1 hdf5_object f1 ->
  FeatureInstanceBase_write self hdf5_object f = Ok (self1, f1).
Proof.
  intros Hw Hno.
  unfold FeatureInstanceBase_write. rewrite Hw. simpl.
  now rewrite (scan_lists_missing _ _ _ _ None Hno).
Qed.

(** C1.  A feature instance whose single data group holds a dataset
    "values" with chunk geometry [geometry] leaves
    FeatureInstanceBase.write with instanceChunking set to the comma-joined
    geometry, "150,200" for (150, 200), and the file differs from what the
    inherited write produced by one flush of the simple attributes of the
    instance.  When that instance is the only one of its feature
    container, S100Root.write sets chunking to the same string on the
    Group_F dataset of the feature code and flushes the simple attributes
    of that dataset at its path; no dataset changes its chunk geometry in
    either pass. *)
Theorem chunking_propagation
    (inst inst1 inst2 : FeatureInstance) (h pattern name : string)
    (fi fi1 fi2 : gmap string H5.node) (grp : DataGroup) (a : gmap string value)
    (geometry : list Z)
    (self self1 : S100Root) (g : string) (f f1 : gmap string H5.node)
    (code : pystring) (feat_info : GroupF)
    (property_name python_name ds_name fpattern lname : string)
    (fc : FeatureContainer) (ds : FeatureInformationDataset) (node : H5.node) :
  super_write inst h fi = Ok (inst1, fi1) ->
  fi_standard_list_properties inst1 = [(pattern, name)] ->
  fi_lists inst1 !! name = Some [grp] ->
  fi1 !! H5.resolve h (values_path grp) = Some (H5.Dataset (Some geometry) a) ->
  FeatureInstanceBase_write inst h fi = Ok (inst2, fi2) ->
  super_write self g f = Ok (self1, f1) ->
  find_feat_info self1 (root_standard_properties self1) None
    = Ok (Some (property_name, ChildGroupF feat_info)) ->
  gf_feature_code feat_info = Some [code] ->
  lookup_feature_name (root_standard_properties_mapping self1) code = Ok python_name ->
  root_children self1 !! python_name = Some (ChildContainer fc) ->
  fc_standard_list_properties fc = [(fpattern, lname)] ->
  fc_lists fc !! lname = Some [inst2] ->
  lookup_feature_name (gf_standard_properties_mapping feat_info) code = Ok ds_name ->
  gf_datasets feat_info !! ds_name = Some ds ->
  f1 !! H5.resolve g (relative_hdf5_dataset_path (fid_hdf5_path ds)) = Some node ->
  let chunking := String.concat "," (map str_of_int geometry) in
  (geometry = [150; 200] -> chunking = "150,200") /\
  fi_attributes inst2 !! instance_chunking_attribute_name = Some (VStr chunking) /\
  fi2 = write_simple_attributes (fi_attributes inst2) h fi1 /\
  (forall p, H5.chunks_at fi2 p = H5.chunks_at fi1 p) /\
  (forall n, fi1 !! h = Some n ->
     exists stored,
       H5.node_attrs <$> (fi2 !! h) = Some stored /\
       stored !! instance_chunking_attribute_name = Some (VStr chunking)) /\
  exists (self2 : S100Root) (feat_info2 : GroupF) (ds2 : FeatureInformationDataset)
         (f2 : gmap string H5.node),
    S100Root_write self g f = Ok (self2, f2) /\
    root_children self2 !! property_name = Some (ChildGroupF feat_info2) /\
    gf_datasets feat_info2 !! ds_name = Some ds2 /\
    fid_attributes ds2 !! chunking_attribute_name = Some (VStr chunking) /\
    f2 = write_simple_attributes (fid_attributes ds2)
           (H5.resolve g (relative_hdf5_dataset_path (fid_hdf5_path ds))) f1 /\
    (forall p, H5.chunks_at f2 p = H5.chunks_at f1 p) /\
    exists stored,
      H5.node_attrs <$>
        (f2 !! H5.resolve g (relative_hdf5_dataset_path (fid_hdf5_path ds))) = Some stored /\
      stored !! chunking_attribute_name = Some (VStr chunking).
Proof.
  intros Hw Hprops Hlist Hvalues Hinst Hrw Hfind Hcode Hname Hchild Hfprops Hflist
    Hds Hget Hnode chunking. subst chunking.
  split; [intros ->; reflexivity |].
  unfold FeatureInstanceBase_write in Hinst. rewrite Hw in Hinst. simpl in Hinst.
  rewrite Hprops, (scan_single_group _ _ _ _ _ _ _ _ Hlist Hvalues) in Hinst.
  simpl in Hinst. injection Hinst as <- <-. simpl.
  set (chunking := String.concat "," (map str_of_int geometry)) in *.
  assert (Hattr : <[instance_chunking_attribute_name := VStr chunking]> (fi_attributes inst1)
                    !! instance_chunking_attribute_name = Some (VStr chunking))
    by apply lookup_insert_eq.
  split; [exact Hattr |]. split; [reflexivity |].
  split; [intros p; apply write_simple_attributes_chunks |].
  split.
  { intros n Hn.
    destruct (write_simple_attributes_attr _ h fi1 n _ _ Hn Hattr) as [Hstored Hkey].
    eexists. split; [exact Hstored | exact Hkey]. }
  assert (Hscan : scan_feature_lists fc (fc_standard_list_properties fc) None
                  = Some (VStr chunking)).
  { rewrite Hfprops. cbn [scan_feature_lists]. rewrite Hflist.
    cbn [scan_instances fi_attributes]. now rewrite Hattr. }
  destruct (root_write_one_feature self self1 g f f1 code feat_info property_name
              python_name ds_name chunking fc (VStr chunking) ds node
              Hrw Hfind Hcode Hname Hchild Hscan eq_refl Hds Hget Hnode)
    as (self2 & feat_info2 & ds2 & Hroot & Hgf & Hds2 & Hattrs).
  exists self2, feat_info2, ds2; eexists. split; [exact Hroot |].
  split; [exact Hgf |]. split; [exact Hds2 |].
  assert (Hchunk : fid_attributes ds2 !! chunking_attribute_name = Some (VStr chunking))
    by (rewrite Hattrs; apply lookup_insert_eq).
  split; [exact Hchunk |]. split; [reflexivity |].
  split; [intros p; apply write_simple_attributes_chunks |].
  destruct (write_simple_attributes_attr (fid_attributes ds2) _ f1 node _ _ Hnode Hchunk)
    as [Hstored Hkey].
  eexists. split; [exact Hstored | exact Hkey].
Qed.

(** C4.  When several instances of a feature container carry
    instanceChunking, S100Root.write puts the value of the last of them in
    iteration order on the Group_F dataset of the feature code; a
    different value carried by an earlier instance is not the one in the
    dataset. *)
Theorem last_instance_wins
    (self self1 : S100Root) (g : string) (f f1 : gmap string H5.node)
    (code : pystring) (feat_info : GroupF)
    (property_name python_name ds_name fpattern lname s : string)
    (fc : FeatureContainer) (before after : list FeatureInstance) (last : FeatureInstance)
    (ds : FeatureInformationDataset) (node : H5.node) :
  super_write self g f = Ok (self1, f1) ->
  find_feat_info self1 (root_standard_properties self1) None
    = Ok (Some (property_name, ChildGroupF feat_info)) ->
  gf_feature_code feat_info = Some [code] ->
  lookup_feature_name (root_standard_properties_mapping self1) code = Ok python_name ->
  root_children self1 !! python_name = Some (ChildContainer fc) ->
  fc_standard_list_properties fc = [(fpattern, lname)] ->
  fc_lists fc !! lname = Some (before ++ last :: after)%list ->
  fi_attributes last !! instance_chunking_attribute_name = Some (VStr s) ->
  Forall (fun i => fi_attributes i !! instance_chunking_attribute_name = None) after ->
  lookup_feature_name (gf_standard_properties_mapping feat_info) code = Ok ds_name ->
  gf_datasets feat_info !! ds_name = Some ds ->
  f1 !! H5.resolve g (relative_hdf5_dataset_path (fid_hdf5_path ds)) = Some node ->
  exists (self2 : S100Root) (feat_info2 : GroupF) (ds2 : FeatureInformationDataset)
         (f2 : gmap string H5.node),
    S100Root_write self g f = Ok (self2, f2) /\
    root_children self2 !! property_name = Some (ChildGroupF feat_info2) /\
    gf_datasets feat_info2 !! ds_name = Some ds2 /\
    fid_attributes ds2 !! chunking_attribute_name = Some (VStr s) /\
    (forall (earlier : FeatureInstance) (s' : string),
       In earlier before ->
       fi_attributes earlier !! instance_chunking_attribute_name = Some (VStr s') ->
       s' <> s ->
       fid_attributes ds2 !! chunking_attribute_name <> Some (VStr s')).
Proof.
  intros Hrw Hfind Hcode Hname Hchild Hfprops Hflist Hlast Hafter Hds Hget Hnode.
  assert (Hscan : scan_feature_lists fc (fc_standard_list_properties fc) None
                  = Some (VStr s)).
  { rewrite Hfprops. simpl. rewrite Hflist.
    now apply scan_instances_last. }
  destruct (root_write_one_feature self self1 g f f1 code feat_info property_name
              python_name ds_name s fc (VStr s) ds node
              Hrw Hfind Hcode Hname Hchild Hscan eq_refl Hds Hget Hnode)
    as (self2 & feat_info2 & ds2 & Hroot & Hgf & Hds2 & Hattrs).
  exists self2, feat_info2, ds2; eexists. split; [exact Hroot |].
  split; [exact Hgf |]. split; [exact Hds2 |].
  assert (Hchunk : fid_attributes ds2 !! chunking_attribute_name = Some (VStr s))
    by (rewrite Hattrs; apply lookup_insert_eq).
  split; [exact Hchunk |].
  intros earlier s' _ _ Hne. rewrite Hchunk. congruence.
Qed.

End Writing.

(** *** The lookup of a feature code *)

Lemma dict_get_cases (mapping : list (pystring * string)) (key : pystring) :
  (exists v, dict_get mapping key = Ok v) \/
  dict_get mapping key = Raise (KeyError (match key with Text s => s | Bytes b => b end)).
Proof.
  induction mapping as [| [k v] rest IH]; simpl; [now right |].
  destruct (pystring_eqb k key); [left; now exists v | exact IH].
Qed.

(** C5, as the code has it.  The retry goes one way only: a byte-string
    feature code that the mapping does not hold is decoded and looked up
    as text, so such a code resolves against a byte-string-keyed mapping
    (directly) and against a text-string-keyed one (through the retry).
    A text-string feature code is never encoded: it resolves exactly when
    the direct lookup does, and otherwise the attempt to decode it raises
    AttributeError. *)
Theorem feature_code_retry
    (mapping : list (pystring * string)) (b python_name : string) :
  utf8_valid (chars b) 0 128 191 = true ->
  (dict_get mapping (Bytes b) = Ok python_name \/
   dict_get mapping (Bytes b) = Raise (KeyError b) /\
   dict_get mapping (Text b) = Ok python_name) ->
  lookup_feature_name mapping (Bytes b) = Ok python_name /\
  (forall t : string,
     lookup_feature_name mapping (Text t) =
       match dict_get mapping (Text t) with
       | Ok v => Ok v
       | Raise _ => Raise (AttributeError "'str' object has no attribute 'decode'")
       end).
Proof.
  intros Hutf Hfound. split.
  - unfold lookup_feature_name, decode.
    destruct Hfound as [-> | [-> Htext]]; [reflexivity |].
    rewrite Hutf. exact Htext.
  - intros t. unfold lookup_feature_name.
    destruct (dict_get_cases mapping (Text t)) as [[v ->] | ->]; reflexivity.
Qed.

(** A byte-string code found through the retry in the mapping of the
    sample root. *)
Lemma feature_code_retry_witness :
  lookup_feature_name (root_standard_properties_mapping (Sample.sample_root []))
    (Bytes "BathymetryCoverage") = Ok "bathymetry_coverage".
Proof.
  apply (feature_code_retry
           (root_standard_properties_mapping (Sample.sample_root []))
           "BathymetryCoverage" "bathymetry_coverage").
  - reflexivity.
  - right. split; reflexivity.
Defined.

(** C5, as stated, fails: a text-string feature code whose mapping is
    keyed by byte strings is not found directly, its byte-string form is in
    the mapping, and the resolution raises instead of succeeding. *)
Lemma text_code_is_not_encoded :
  let mapping := [(Bytes "BathymetryCoverage", "bathymetry_coverage")] in
  dict_get mapping (Text "BathymetryCoverage") = Raise (KeyError "BathymetryCoverage") /\
  dict_get mapping (Bytes "BathymetryCoverage") = Ok "bathymetry_coverage" /\
  lookup_feature_name mapping (Text "BathymetryCoverage")
    = Raise (AttributeError "'str' object has no attribute 'decode'").
Proof. cbv zeta. split_all; reflexivity. Qed.

End S100Facts.

Module S100Witness.
Import Py S100 S100Facts.

(** *** The statements on the sample product *)

Lemma range_coercion_round_trip_witness :
  fill_value (<[fill_value_attribute_name := VStr "12000"]>
                {[ datatype_attribute_name := VStr "H5T_NATIVE_FLOAT" ]}) = Ok (VFloat f12000) /\
  fill_value (<[fill_value_attribute_name := VStr "42"]>
                {[ datatype_attribute_name := VStr "H5T_INTEGER" ]}) = Ok (VInt 42).
Proof.
  destruct (range_coercion_round_trip
              {[ datatype_attribute_name := VStr "H5T_NATIVE_FLOAT" ]}
              {[ datatype_attribute_name := VStr "H5T_INTEGER" ]}
              "H5T_NATIVE_FLOAT" "H5T_INTEGER" 42)
    as ((_ & Hf & _) & (_ & Hi & _) & _).
  - vm_compute; reflexivity.
  - left; reflexivity.
  - vm_compute; reflexivity.
  - left; reflexivity.
  - split; [exact Hf | exact Hi].
Defined.

Lemma write_without_values_dataset_witness :
  FeatureInstanceBase_write (H := Sample.attributes_only)
    Sample.coverage_01 Sample.coverage_01_path ∅
  = Ok (Sample.coverage_01,
        <[Sample.coverage_01_path := H5.Group (fi_attributes Sample.coverage_01)]> ∅).
Proof.
  apply (write_without_values_dataset (H := Sample.attributes_only)).
  - reflexivity.
  - repeat constructor. eexists. split; [vm_compute; reflexivity |].
    repeat constructor.
Defined.

Lemma chunking_propagation_witness :
  fi_attributes Sample.coverage_01_chunked !! instance_chunking_attribute_name
    = Some (VStr "150,200") /\
  exists (self2 : S100Root) (f2 : gmap string H5.node) (attrs : gmap string value),
    S100Root_write (H := Sample.root_base) (Sample.sample_root [Sample.coverage_01]) "/" ∅
      = Ok (self2, f2) /\
    H5.node_attrs <$> (f2 !! "/Group_F/BathymetryCoverage") = Some attrs /\
    attrs !! chunking_attribute_name = Some (VStr "150,200").
Proof.
  destruct (chunking_propagation (H := Sample.instance_base) (H0 := Sample.root_base)
              Sample.coverage_01 Sample.coverage_01 Sample.coverage_01_chunked
              Sample.coverage_01_path "Group[\._]\d+" "bathymetry_group"
              ∅ Sample.coverage_01_file
              (write_simple_attributes (fi_attributes Sample.coverage_01_chunked)
                 Sample.coverage_01_path Sample.coverage_01_file)
              {| grp_hdf5_path := "/BathymetryCoverage/BathymetryCoverage.1/Group_001" |}
              ∅ [150; 200]
              (Sample.sample_root [Sample.coverage_01])
              (Sample.sample_root [Sample.coverage_01_chunked])
              "/" ∅ Sample.sample_root_file
              (Bytes "BathymetryCoverage") Sample.group_f
              "feature_information" "bathymetry_coverage" "bathymetry_coverage_dataset"
              "BathymetryCoverage[\._]\d+" "bathymetry_coverage"
              (Sample.coverage_container [Sample.coverage_01_chunked])
              {| fid_attributes := {[ chunking_attribute_name := VStr "0,0" ]};
                 fid_hdf5_path := "/Group_F/BathymetryCoverage" |}
              (H5.Dataset None {[ chunking_attribute_name := VStr "0,0" ]}))
    as (_ & Hchunk & _ & _ & _ & self2 & feat_info2 & ds2 & f2 & Hroot & _ & _ & _ & _ & _
          & stored & Hstored & Hkey);
    try (vm_compute; reflexivity).
  split; [exact Hchunk |].
  exists self2, f2, stored. split; [exact Hroot |]. split; [exact Hstored | exact Hkey].
Defined.

Lemma last_instance_wins_witness :
  exists (self2 : S100Root) (feat_info2 : GroupF) (ds2 : FeatureInformationDataset)
         (f2 : gmap string H5.node),
    S100Root_write (H := Sample.descriptive_only)
      (Sample.sample_root [Sample.coverage_with "64,64"; Sample.coverage_with "150,200"])
      "/" ∅ = Ok (self2, f2) /\
    root_children self2 !! "feature_information" = Some (ChildGroupF feat_info2) /\
    gf_datasets feat_info2 !! "bathymetry_coverage_dataset" = Some ds2 /\
    fid_attributes ds2 !! chunking_attribute_name = Some (VStr "150,200").
Proof.
  edestruct (last_instance_wins (H0 := Sample.descriptive_only))
    with (self := Sample.sample_root
                    [Sample.coverage_with "64,64"; Sample.coverage_with "150,200"])
         (g := "/") (f := ∅ : gmap string H5.node) (code := Bytes "BathymetryCoverage")
         (s := "150,200") (before := [Sample.coverage_with "64,64"])
         (after := @nil FeatureInstance) (last := Sample.coverage_with "150,200")
    as (self2 & feat_info2 & ds2 & f2 & Hroot & Hgf & Hds & Hchunk & _).
  - reflexivity.
  - vm_compute; reflexivity.
  - reflexivity.
  - vm_compute; reflexivity.
  - vm_compute; reflexivity.
  - reflexivity.
  - vm_compute; reflexivity.
  - vm_compute; reflexivity.
  - constructor.
  - vm_compute; reflexivity.
  - vm_compute; reflexivity.
  - vm_compute; reflexivity.
  - exists self2, feat_info2, ds2, f2. split_all; assumption.
Defined.

End S100Witness.

(** ** Grid ingestion *)

Module UtilsFacts.
Import Py Utils.

(** *** The allow-list of datum codes *)

Lemma in_arange (a b z : Z) : In z (arange a b) <-> a <= z < b.
Proof.
  unfold arange. rewrite in_map_iff. split.
  - intros (i & <- & Hi). apply in_seq in Hi. lia.
  - intros Hz. exists (Z.to_nat (z - a)). split; [lia |]. apply in_seq. lia.
Qed.

Lemma in_get_valid_epsg (z : Z) :
  In z get_valid_epsg <->
  z = 4326 \/ z = 5041 \/ z = 5042 \/ 32601 <= z <= 32660 \/ 32701 <= z <= 32760.
Proof.
  unfold get_valid_epsg. rewrite !in_app_iff, !in_arange. simpl. lia.
Qed.

Lemma contains_In (l : list Z) (z : Z) : contains l z = true <-> In z l.
Proof.
  unfold contains. rewrite existsb_exists. split.
  - intros (x & Hx & Heq). apply Z.eqb_eq in Heq. now subst.
  - intros Hz. exists z. split; [exact Hz | apply Z.eqb_refl].
Qed.

Lemma contains_not_In (l : list Z) (z : Z) : ~ In z l -> contains l z = false.
Proof.
  intros Hn. destruct (contains l z) eqn:E; [| reflexivity].
  apply contains_In in E. contradiction.
Qed.

(** *** The datum block *)

Lemma set_horizontal_datum_valid (metadata : Metadata) (overwrite : bool)
    (v : value) (code : Z) (s : S102File) :
  md_horizontalDatumValue metadata = Some v ->
  py_int v = Ok code ->
  In code get_valid_epsg ->
  exists s', set_horizontal_datum metadata overwrite s = (Ok tt, s') /\
             root s' !! "horizontalDatumValue" = Some (VInt code).
Proof.
  intros Hv Hint Hin. apply contains_In in Hin.
  unfold set_horizontal_datum, bindM. rewrite Hv. cbn [has_key orb default from_option id].
  destruct (has_key (md_horizontalDatumReference metadata) || overwrite);
    cbn [modify ret lift from_option id]; rewrite Hint, Hin; cbn [modify];
    eexists; (split; [reflexivity |]); cbn [root with_root]; apply lookup_insert_eq.
Qed.

Lemma set_horizontal_datum_invalid (metadata : Metadata) (overwrite : bool)
    (v : value) (code : Z) (s : S102File) :
  md_horizontalDatumValue metadata = Some v ->
  py_int v = Ok code ->
  ~ In code get_valid_epsg ->
  exists s',
    set_horizontal_datum metadata overwrite s =
      (Raise (ValueError ("The provided EPSG code " ++ str_of_int code
                          ++ " is not within the S102 specified values.")), s') /\
    root s' !! "horizontalDatumValue" = root s !! "horizontalDatumValue".
Proof.
  intros Hv Hint Hin. apply contains_not_In in Hin.
  unfold set_horizontal_datum, bindM. rewrite Hv. cbn [has_key orb default from_option id].
  destruct (has_key (md_horizontalDatumReference metadata) || overwrite);
    cbn [modify ret lift from_option id]; rewrite Hint, Hin; cbn [lift];
    eexists; (split; [reflexivity |]); cbn [root with_root]; [| reflexivity].
  now rewrite lookup_insert_ne.
Qed.

(** *** The corners of the grid *)

(** [r < 0] for a float [r] is the IEEE comparison with zero. *)
Lemma py_lt_float_zero (r : spec_float) :
  py_lt (VFloat r) (VInt 0) = Ok (fltb r (S754_zero false)).
Proof.
  unfold py_lt, py_compare, compare_int_float, fltb, SFltb, SFcompare. simpl.
  destruct r as [s | s | | s m e]; try (destruct s; reflexivity); try reflexivity.
  destruct s, (0 <=? e) eqn:E; simpl; try reflexivity.
  - assert (Z.neg m * 2 ^ e < 0)
      by (apply Z.mul_neg_pos; [lia | apply Z.pow_pos_nonneg; lia]).
    destruct (Z.neg m * 2 ^ e); try lia; reflexivity.
  - assert (0 < Z.pos m * 2 ^ e)
      by (apply Z.mul_pos_pos; [lia | apply Z.pow_pos_nonneg; lia]).
    destruct (Z.pos m * 2 ^ e); try lia; reflexivity.
Qed.

(** The flips are the tests [res_x < 0] and [res_y < 0]. *)
Lemma grid_corners_flips (depth_grid : Numpy.ndarray) (metadata : Metadata)
    (flip_x flip_y : bool) (minx maxx miny maxy : value) :
  grid_corners depth_grid metadata = Ok (flip_x, flip_y, minx, maxx, miny, maxy) ->
  exists res_x res_y,
    md_res metadata = Some (res_x, res_y) /\
    py_lt res_x (VInt 0) = Ok flip_x /\
    py_lt res_y (VInt 0) = Ok flip_y.
Proof.
  unfold grid_corners. intros Hc.
  destruct (md_res metadata) as [[res_x res_y] |]; [| discriminate Hc].
  exists res_x, res_y. split; [reflexivity |]. cbn [md_item bind] in Hc.
  repeat match type of Hc with
         | bind ?r _ = Ok _ => destruct r eqn:?; cbn [bind] in Hc; [| discriminate Hc]
         | (let '(_, _) := ?p in _) = Ok _ => destruct p; cbn [bind] in Hc
         | match ?p with (_, _) => _ end = Ok _ => destruct p; cbn [bind] in Hc
         end.
  injection Hc as -> -> _ _ _ _. split; reflexivity.
Qed.

(** *** Running the statements of [from_arrays] *)

Lemma shape_full (shp : Z * Z) (v : option spec_float) :
  0 <= fst shp -> 0 <= snd shp -> Numpy.shape (Numpy.full shp v) = shp.
Proof.
  intros H1 H2. destruct shp as [n m]. unfold Numpy.shape, Numpy.full. simpl in *.
  rewrite repeat_length, !Z2Nat.id by assumption. reflexivity.
Qed.

Lemma shape_eqb_refl (shp : Z * Z) : Numpy.shape_eqb shp shp = true.
Proof. unfold Numpy.shape_eqb. now rewrite !Z.eqb_refl. Qed.

Lemma shape_eqb_neq (s t : Z * Z) : s <> t -> Numpy.shape_eqb s t = false.
Proof.
  intros Hne. unfold Numpy.shape_eqb.
  destruct (fst s =? fst t) eqn:E1; [| reflexivity].
  destruct (snd s =? snd t) eqn:E2; [| reflexivity].
  apply Z.eqb_eq in E1, E2. destruct s, t. simpl in *. congruence.
Qed.

(** Every cell of an array filled with [v] equals [v]: nothing is
    selected by comparing it with [v]. *)
Lemma select_ne_full (shp : Z * Z) (v : spec_float) :
  feqb (Numpy.cast true v) (Numpy.cast true v) = true ->
  Numpy.select_ne (Numpy.full shp (Some v)) (Some v) = [].
Proof.
  intros Heq. unfold Numpy.select_ne.
  assert (Hcells : Forall (fun c => c = Numpy.cast true v)
                     (concat (Numpy.rows (Numpy.full shp (Some v))))).
  { unfold Numpy.full. cbn [Numpy.rows].
    induction (Z.to_nat (fst shp)) as [| n IH]; [constructor |].
    cbn [repeat concat]. apply Forall_app. split; [| exact IH].
    apply Forall_forall. intros c Hc. apply list_elem_of_In in Hc.
    now apply repeat_spec in Hc. }
  induction Hcells as [| c r -> _ IH]; [reflexivity |].
  cbn [List.filter]. unfold Numpy.cell_ne at 1. cbn [Numpy.full Numpy.single].
  rewrite Heq. exact IH.
Qed.

(** *** Running statements one at a time *)

Lemma bindM_ok {A B} (m : M A) (k : A -> M B) (s s' : S102File) (a : A) :
  m s = (Ok a, s') -> bindM m k s = k a s'.
Proof. intros Hm. unfold bindM. now rewrite Hm. Qed.

Lemma bindM_raise {A B} (m : M A) (k : A -> M B) (s s' : S102File) (e : exn) :
  m s = (Raise e, s') -> bindM m k s = (Raise e, s').
Proof. intros Hm. unfold bindM. now rewrite Hm. Qed.

Lemma keeps_root_bind {A B} (m : M A) (k : A -> M B) :
  keeps_root m -> (forall a, keeps_root (k a)) -> keeps_root (bindM m k).
Proof.
  intros Hm Hk s. unfold bindM. specialize (Hm s).
  destruct (m s) as [[a | e] s']; simpl in *; [| exact Hm].
  now rewrite Hk.
Qed.

Lemma keeps_root_lift {A} (r : result A) : keeps_root (lift r).
Proof. intros s. reflexivity. Qed.

Lemma keeps_root_ret {A} (a : A) : keeps_root (ret a).
Proof. intros s. reflexivity. Qed.

Lemma keeps_root_instances (f : list BathymetryInstance -> list BathymetryInstance) :
  keeps_root (modify (with_instances f)).
Proof. intros s. reflexivity. Qed.

Lemma keeps_root_origin (c : value * value) : keeps_root (set_origin_coordinate c).
Proof.
  intros s. unfold set_origin_coordinate.
  destruct (bathymetry_coverage s) as [| i l]; [reflexivity |].
  destruct (bathymetry_group i) as [| g r]; [reflexivity |].
  destruct (origin g); reflexivity.
Qed.

Ltac solve_keeps_root :=
  repeat first
    [ apply keeps_root_lift | apply keeps_root_ret | apply keeps_root_instances
    | apply keeps_root_origin
    | apply keeps_root_bind; [| intros ?]
    | match goal with |- keeps_root (match ?x with _ => _ end) => destruct x end ].

Lemma set_bounds_root (metadata : Metadata) (minx maxx miny maxy : value) (s : S102File) :
  root (snd (set_bounds metadata minx maxx miny maxy s)) =
    <["northBoundLatitude" := maxy]>
      (<["southBoundLatitude" := miny]>
         (<["westBoundLongitude" := minx]>
            (<["eastBoundLongitude" := maxx]> (root s)))).
Proof.
  unfold set_bounds.
  do 4 (erewrite bindM_ok by reflexivity).
  match goal with |- root (snd (?m ?s0)) = _ => assert (Hk : keeps_root m) end.
  { unfold bathy_01, bathy_group_object. solve_keeps_root. }
  rewrite Hk. reflexivity.
Qed.

Section Ingestion.
Context `{S102Api}.

Lemma stored_values_prepared (overwrite : bool) (s : S102File) :
  stored_values (prepared overwrite s) = stored_values (create_s102 s).
Proof.
  unfold prepared, stored_values, with_instances, on_head, ensure_head. simpl.
  destruct (bathymetry_coverage (create_s102 s)) as [| i l]; simpl; [reflexivity |].
  destruct (bathymetry_group i); reflexivity.
Qed.

Lemma from_arrays_shape_mismatch (depth_grid uncert_grid : Numpy.ndarray)
    (nodata_value : option spec_float) (flip_x flip_y overwrite : bool) (s : S102File) :
  Numpy.shape depth_grid <> Numpy.shape uncert_grid ->
  from_arrays depth_grid (Some uncert_grid) nodata_value flip_x flip_y overwrite s =
    (Raise (S102Exception "Depth and Uncertainty grids have different shapes"),
     prepared overwrite s).
Proof.
  intros Hne. unfold from_arrays, bathy_01, bathy_group_object.
  cbn [bindM modify]. rewrite (shape_eqb_neq _ _ Hne). reflexivity.
Qed.

(** C9.  Whatever else is passed, a depth grid and an uncertainty grid of
    different shapes make from_arrays raise the S102Exception for
    mismatched shapes, and the value arrays of the file are what
    create_s102 left: nothing was written to them. *)
Theorem mismatched_shapes_are_rejected (depth_grid uncert_grid : Numpy.ndarray)
    (nodata_value : option spec_float) (flip_x flip_y overwrite : bool) (s : S102File) :
  Numpy.shape depth_grid <> Numpy.shape uncert_grid ->
  exists s',
    from_arrays depth_grid (Some uncert_grid) nodata_value flip_x flip_y overwrite s =
      (Raise (S102Exception "Depth and Uncertainty grids have different shapes"), s') /\
    stored_values s' = stored_values (create_s102 s).
Proof.
  intros Hne. exists (prepared overwrite s). split.
  - now apply from_arrays_shape_mismatch.
  - apply stored_values_prepared.
Qed.

Lemma from_arrays_without_uncertainty (depth_grid : Numpy.ndarray) (v : spec_float)
    (flip_x flip_y overwrite : bool) (s : S102File) :
  feqb (Numpy.cast true v) (Numpy.cast true v) = true ->
  fst (from_arrays depth_grid None (Some v) flip_x flip_y overwrite s) =
    Raise (ValueError "zero-size array to reduction operation maximum which has no identity").
Proof.
  intros Heq. unfold from_arrays, bathy_01, bathy_group_object.
  cbn [bindM modify].
  rewrite shape_full by (unfold Numpy.shape; simpl; lia).
  rewrite shape_eqb_refl. cbn [negb bindM modify].
  destruct (Numpy.select_ne depth_grid (Some v)) as [| c r]; [reflexivity |].
  cbn [lift Numpy.max Numpy.min bindM modify].
  rewrite (select_ne_full _ _ Heq). reflexivity.
Qed.

(** C10.  With no uncertainty grid and the nodata marker -9999.0,
    from_arrays raises ValueError for every depth grid: the array it
    builds holds the marker in every cell, so the cells it selects for the
    maximum are none (when the depth grid itself holds only the marker the
    same error comes from the depth maximum). *)
Theorem missing_uncertainty_raises (depth_grid : Numpy.ndarray)
    (flip_x flip_y overwrite : bool) (s : S102File) :
  Numpy.shape (Numpy.full (Numpy.shape depth_grid) (Some (flt "-9999.0")))
    = Numpy.shape depth_grid /\
  fst (from_arrays depth_grid None (Some (flt "-9999.0")) flip_x flip_y overwrite s) =
    Raise (ValueError "zero-size array to reduction operation maximum which has no identity").
Proof.
  split.
  - apply shape_full; unfold Numpy.shape; simpl; lia.
  - apply from_arrays_without_uncertainty. vm_compute. reflexivity.
Qed.

(** C8.  The codes get_valid_epsg lists are 4326, 5041, 5042, 32601 to
    32660 and 32701 to 32760, so 32601 is one of them and 9999 is not.
    Once the grids are ingested and the bounds are set,
    from_arrays_with_metadata converts the horizontalDatumValue of the
    metadata with int(); a listed code is stored as horizontalDatumValue of
    the root and the function goes on to describe and write the file; for
    a code that is not listed it raises the ValueError naming the code
    (the InvalidDatumCode of the specification) and leaves
    horizontalDatumValue as it was. *)
Theorem horizontal_datum_validation (depth_grid : Numpy.ndarray)
    (uncert_grid : option Numpy.ndarray) (metadata : Metadata)
    (nodata_value : option spec_float) (overwrite flip_x flip_y : bool)
    (minx maxx miny maxy datum : value) (code : Z) (s s1 s2 : S102File) :
  grid_corners depth_grid metadata = Ok (flip_x, flip_y, minx, maxx, miny, maxy) ->
  from_arrays depth_grid uncert_grid nodata_value flip_x flip_y overwrite s = (Ok tt, s1) ->
  set_bounds metadata minx maxx miny maxy s1 = (Ok tt, s2) ->
  md_horizontalDatumValue metadata = Some datum ->
  py_int datum = Ok code ->
  (forall z, In z get_valid_epsg <->
     z = 4326 \/ z = 5041 \/ z = 5042 \/ 32601 <= z <= 32660 \/ 32701 <= z <= 32760) /\
  In 32601 get_valid_epsg /\
  ~ In 9999 get_valid_epsg /\
  (In code get_valid_epsg ->
   exists s3,
     root s3 !! "horizontalDatumValue" = Some (VInt code) /\
     from_arrays_with_metadata depth_grid uncert_grid metadata nodata_value overwrite s
       = describe_and_write metadata overwrite s3) /\
  (~ In code get_valid_epsg ->
   exists s3,
     from_arrays_with_metadata depth_grid uncert_grid metadata nodata_value overwrite s
       = (Raise (ValueError ("The provided EPSG code " ++ str_of_int code
                             ++ " is not within the S102 specified values.")), s3) /\
     root s3 !! "horizontalDatumValue" = root s2 !! "horizontalDatumValue") /\
  str_of_int 9999 = "9999".
Proof.
  intros Hcorners Harrays Hbounds Hdatum Hcode.
  split; [exact in_get_valid_epsg |].
  split; [apply in_get_valid_epsg; lia |].
  split; [rewrite in_get_valid_epsg; lia |].
  assert (Hprefix :
            from_arrays_with_metadata depth_grid uncert_grid metadata nodata_value overwrite s
            = bindM (set_horizontal_datum metadata overwrite)
                (fun _ => describe_and_write metadata overwrite) s2).
  { unfold from_arrays_with_metadata, bindM, lift.
    rewrite Hcorners, Harrays, Hbounds. reflexivity. }
  split; [| split; [| reflexivity]].
  - intros Hin.
    destruct (set_horizontal_datum_valid metadata overwrite datum code s2 Hdatum Hcode Hin)
      as (s3 & Hrun & Hroot).
    exists s3. split; [exact Hroot |].
    rewrite Hprefix. unfold bindM. now rewrite Hrun.
  - intros Hout.
    destruct (set_horizontal_datum_invalid metadata overwrite datum code s2 Hdatum Hcode Hout)
      as (s3 & Hrun & Hroot).
    exists s3. split; [| exact Hroot].
    rewrite Hprefix. unfold bindM. now rewrite Hrun.
Qed.

(** C7.  For a depth grid of shape (100, 50), origin (10.0, 20.0) and
    resolution (0.5, -0.5), the far corner is origin + resolution x
    (count - 1): 10.0 + 0.5 x 99 = 59.5 and 20.0 - 0.5 x 49 = -4.5.
    from_arrays_with_metadata calls from_arrays with flip_x false and
    flip_y true, and then sets west 10.0, east 59.5, south -4.5, north 20.0
    on the root.  In general the flips are the tests res_x < 0 and
    res_y < 0, which for floats is the comparison with zero. *)
Theorem grid_bounding_box (depth_grid : Numpy.ndarray) (metadata : Metadata) :
  Numpy.shape depth_grid = (100, 50) ->
  md_origin metadata = Some (VFloat (flt "10.0"), VFloat (flt "20.0")) ->
  md_res metadata = Some (VFloat (flt "0.5"), VFloat (flt "-0.5")) ->
  grid_corners depth_grid metadata =
    Ok (false, true,
        VFloat (flt "10.0"), VFloat (flt "59.5"), VFloat (flt "-4.5"), VFloat (flt "20.0")) /\
  fadd (flt "10.0") (fmul (flt "0.5") (float_of_Z (100 - 1))) = flt "59.5" /\
  fadd (flt "20.0") (fmul (flt "-0.5") (float_of_Z (50 - 1))) = flt "-4.5" /\
  (forall (grid : Numpy.ndarray) (md : Metadata) (flip_x flip_y : bool)
          (minx maxx miny maxy : value),
     grid_corners grid md = Ok (flip_x, flip_y, minx, maxx, miny, maxy) ->
     exists res_x res_y,
       md_res md = Some (res_x, res_y) /\
       py_lt res_x (VInt 0) = Ok flip_x /\ py_lt res_y (VInt 0) = Ok flip_y) /\
  (forall r : spec_float, py_lt (VFloat r) (VInt 0) = Ok (fltb r (S754_zero false))) /\
  forall (uncert_grid : option Numpy.ndarray) (nodata_value : option spec_float)
         (overwrite : bool) (s : S102File),
    from_arrays_with_metadata depth_grid uncert_grid metadata nodata_value overwrite s =
      (do! _ <- from_arrays depth_grid uncert_grid nodata_value false true overwrite;
       do! _ <- set_bounds metadata (VFloat (flt "10.0")) (VFloat (flt "59.5"))
                  (VFloat (flt "-4.5")) (VFloat (flt "20.0"));
       do! _ <- set_horizontal_datum metadata overwrite;
       describe_and_write metadata overwrite) s /\
    forall s1,
      let bounded :=
        root (snd (set_bounds metadata (VFloat (flt "10.0")) (VFloat (flt "59.5"))
                     (VFloat (flt "-4.5")) (VFloat (flt "20.0")) s1)) in
      bounded !! "westBoundLongitude" = Some (VFloat (flt "10.0")) /\
      bounded !! "eastBoundLongitude" = Some (VFloat (flt "59.5")) /\
      bounded !! "southBoundLatitude" = Some (VFloat (flt "-4.5")) /\
      bounded !! "northBoundLatitude" = Some (VFloat (flt "20.0")).
Proof.
  intros Hshape Horigin Hres.
  assert (Hcorners :
            grid_corners depth_grid metadata =
              Ok (false, true, VFloat (flt "10.0"), VFloat (flt "59.5"),
                  VFloat (flt "-4.5"), VFloat (flt "20.0"))).
  { unfold grid_corners. rewrite Hshape, Horigin, Hres. vm_compute. reflexivity. }
  split; [exact Hcorners |].
  split; [vm_compute; reflexivity |].
  split; [vm_compute; reflexivity |].
  split; [exact grid_corners_flips |].
  split; [exact py_lt_float_zero |].
  intros uncert_grid nodata_value overwrite s. split.
  - unfold from_arrays_with_metadata, bindM, lift.
    rewrite Hcorners. reflexivity.
  - intros s1. cbv zeta. rewrite set_bounds_root.
    split_all; simplify_map_eq; reflexivity.
Qed.

End Ingestion.

End UtilsFacts.

(** *** The statements on sample grids *)

Module UtilsWitness.
Import Py Utils UtilsFacts.

Lemma grid_bounding_box_witness :
  let run :=
    from_arrays_with_metadata (H := Sample.api) (Sample.ramp 100 50)
      (Some (Sample.ramp 100 50)) (Sample.grid_metadata 32601) Sample.nodata true
      Sample.empty_file in
  fst run = Ok tt /\
  root (snd run) !! "westBoundLongitude" = Some (VFloat (flt "10.0")) /\
  root (snd run) !! "eastBoundLongitude" = Some (VFloat (flt "59.5")) /\
  root (snd run) !! "southBoundLatitude" = Some (VFloat (flt "-4.5")) /\
  root (snd run) !! "northBoundLatitude" = Some (VFloat (flt "20.0")).
Proof.
  cbv zeta.
  destruct (grid_bounding_box (H := Sample.api) (Sample.ramp 100 50)
              (Sample.grid_metadata 32601))
    as (_ & _ & _ & _ & _ & Hrun); try (vm_compute; reflexivity).
  destruct (Hrun (Some (Sample.ramp 100 50)) Sample.nodata true Sample.empty_file)
    as [-> _].
  split_all; vm_compute; reflexivity.
Defined.

Lemma horizontal_datum_validation_witness :
  exists s3,
    root s3 !! "horizontalDatumValue" = Some (VInt 32601) /\
    from_arrays_with_metadata (H := Sample.api) Sample.small_grid (Some Sample.small_grid)
      (Sample.grid_metadata 32601) Sample.nodata true Sample.empty_file
    = (Ok tt, s3).
Proof.
  destruct (horizontal_datum_validation (H := Sample.api)
              Sample.small_grid (Some Sample.small_grid) (Sample.grid_metadata 32601)
              Sample.nodata true false true
              (VFloat (flt "10.0")) (VFloat (flt "11.0")) (VFloat (flt "19.5"))
              (VFloat (flt "20.0")) (VInt 32601) 32601
              Sample.empty_file Sample.ingested Sample.bounded)
    as (_ & Hin & _ & Hvalid & _); try (vm_compute; reflexivity).
  destruct (Hvalid Hin) as (s3 & Hroot & Hrun).
  exists s3. split; [exact Hroot | exact Hrun].
Defined.

Lemma mismatched_shapes_are_rejected_witness :
  exists s',
    from_arrays (H := Sample.api) (Sample.ramp 10 10) (Some (Sample.ramp 10 9))
      Sample.nodata false false true Sample.empty_file
    = (Raise (S102Exception "Depth and Uncertainty grids have different shapes"), s') /\
    stored_values s' = None.
Proof.
  destruct (mismatched_shapes_are_rejected (H := Sample.api)
              (Sample.ramp 10 10) (Sample.ramp 10 9) Sample.nodata false false true
              Sample.empty_file)
    as (s' & Hrun & Hvalues).
  - intros Hshape. vm_compute in Hshape. discriminate Hshape.
  - exists s'. split; [exact Hrun | exact Hvalues].
Defined.

End UtilsWitness.
